(** * colabfit-mcp: the two MCP tools of [colabfit_mcp.py]

    A shallow embedding of [dataset_query] and [download_dataset] and of the
    part of Python, [requests] and the file system they touch, followed by
    the properties of the tools.

    Conventions.
    - Python [int] is [Z]; [str] is [string]; [bytes] is a list of [Byte.byte].
    - A [dict] with string keys is a [gmap string _]; a decoded JSON object,
      which only ever sits inside a JSON value, is an association list.
    - Code runs in the monad [Py]: it threads the [world] (the requests sent
      so far and the files on disk) and either returns or raises.
    - What the program cannot decide (what the server answers, whether the
      disk accepts a write) is an [environment], chosen by the caller. *)

From stdpp Require Import base gmap strings list.
From Stdlib Require Import ZArith.

Local Open Scope string_scope.
Local Open Scope Z_scope.
#[local] Set Warnings "-register-all".

(** ** Python values *)

Abbreviation bytes := (list Byte.byte).

(** Exceptions: the instances of [Exception] the two tools can meet. *)
Inductive exn : Type :=
| RequestException (msg : string)  (* requests: connection, timeout, stream *)
| JSONDecodeError (msg : string)   (* Response.json on a body that is no JSON *)
| HTTPError (status : Z)          (* Response.raise_for_status *)
| OSError (msg : string)           (* open, write *)
| TypeError (msg : string)
| KeyError (key : string)
| ZeroDivisionError.

(** What [json.loads] produces and [json.dumps] accepts. *)
Inductive json : Type :=
| JNull
| JBool (b : bool)
| JInt (n : Z)
| JFloat (literal : string)
| JStr (s : string)
| JArr (items : list json)
| JObj (members : list (string * json)).

(** A value stored in a result dict: JSON-like data or an exception object. *)
Inductive pyval : Type :=
| PJson (j : json)
| PExc (e : exn).

Definition PTrue : pyval := PJson (JBool true).
Definition PFalse : pyval := PJson (JBool false).

(** ** Outcomes and the [Py] monad *)

Inductive outcome (A : Type) : Type :=
| Returns (a : A)
| Raises (e : exn).
Arguments Returns {A} a.
Arguments Raises {A} e.

Inductive http_request : Type :=
| POST (url : string) (json_body : gmap string json) (auth : string * string)
| GET (url : string) (auth : string * string).

(** One [requests.Response]: its status, what [.json()] gives, and what
    iterating [.iter_content(...)] gives: the chunks, then possibly a fault
    of the connection. *)
Record Response : Type := {
  status_code : Z;
  json_body_of : outcome json;
  content_chunks : list bytes;
  content_fault : option exn;
}.

Record world : Type := {
  sent : list http_request;              (* oldest first *)
  files : gmap string bytes;
}.

Record environment : Type := {
  (** the remote service, which may depend on what it was sent before *)
  serve : list http_request -> http_request -> outcome Response;
  (** [open(path, 'wb')]: [Some e] when the OS refuses *)
  open_refused : gmap string bytes -> string -> option exn;
  (** [f.write(chunk)]: [Some e] when the OS refuses *)
  write_refused : gmap string bytes -> string -> bytes -> option exn;
  (** [str(Path.home() / "Downloads")] *)
  download_dir : string;
}.

Definition Py (A : Type) : Type := world -> outcome A * world.

Definition ret {A} (a : A) : Py A := fun w => (Returns a, w).
Definition raise {A} (e : exn) : Py A := fun w => (Raises e, w).
Definition bind {A B} (m : Py A) (k : A -> Py B) : Py B :=
  fun w => match m w with
           | (Returns a, w') => k a w'
           | (Raises e, w') => (Raises e, w')
           end.
Definition lift {A} (o : outcome A) : Py A := fun w => (o, w).

(** [try: body / except Exception as e: handler e] *)
Definition try_except {A} (body : Py A) (handler : exn -> Py A) : Py A :=
  fun w => match body w with
           | (Returns a, w') => (Returns a, w')
           | (Raises e, w') => handler e w'
           end.

Declare Scope py_scope.
Delimit Scope py_scope with py.
Notation "x <- m ;; k" := (bind m (fun x => k))
  (at level 100, m at next level, right associativity) : py_scope.
Notation "m ;;; k" := (bind m (fun _ => k))
  (at level 100, right associativity) : py_scope.
Local Open Scope py_scope.

(** ** The Python operations the tools use *)

(** [len(x)] *)
Definition py_len (x : json) : outcome Z :=
  match x with
  | JStr s => Returns (Z.of_nat (String.length s))
  | JArr items => Returns (Z.of_nat (length items))
  | JObj members => Returns (Z.of_nat (length members))
  | JNull | JBool _ | JInt _ | JFloat _ => Raises (TypeError "object has no len()")
  end.

(** [a // b] on ints: floor division, as [Z.div]; no result when [b] is 0. *)
Definition py_floordiv (a b : Z) : outcome Z :=
  if b =? 0 then Raises ZeroDivisionError else Returns (a / b).

(** How a slice bound is fitted to a sequence of length [len]
    (step 1): a negative bound counts from the end, and both ways the
    result is clipped to [0, len]. *)
Definition adjust_index (len i : Z) : Z :=
  if i <? 0 then Z.max (i + len) 0 else Z.min i len.

(** [l[start:stop]] on a sequence *)
Definition py_slice {A} (l : list A) (start stop : Z) : list A :=
  let len := Z.of_nat (length l) in
  let lo := adjust_index len start in
  let hi := adjust_index len stop in
  if lo <? hi then take (Z.to_nat (hi - lo)) (drop (Z.to_nat lo) l) else [].

(** [x[start:stop]]: lists and strings slice; a dict takes the slice for a
    key (unhashable before Python 3.12, absent from then on); the rest is
    not subscriptable. *)
Definition py_getslice (x : json) (start stop : Z) : outcome json :=
  match x with
  | JArr items => Returns (JArr (py_slice items start stop))
  | JStr s =>
      Returns (JStr (String.string_of_list_ascii
                       (py_slice (String.list_ascii_of_string s) start stop)))
  | JObj _ => Raises (TypeError "unhashable type: 'slice'")
  | JNull | JBool _ | JInt _ | JFloat _ =>
      Raises (TypeError "object is not subscriptable")
  end.

(** [d.pop(key)]: the value and the dict without the key. *)
Definition dict_pop {V} (d : gmap string V) (key : string)
  : outcome (V * gmap string V) :=
  match d !! key with
  | Some v => Returns (v, delete key d)
  | None => Raises (KeyError key)
  end.

(** [str(x)] inside an f-string, for an optional string argument. *)
Definition py_str (x : option string) : string :=
  match x with
  | Some s => s
  | None => "None"
  end.

(** Truth value of an optional string: [None] and [""] are false. *)
Definition truthy (x : option string) : bool :=
  match x with
  | Some (String _ _) => true
  | _ => false
  end.

(** ** The requests library *)

(** [requests.post(url, json=body, auth=auth)] and
    [requests.get(url, stream=True, auth=auth)]: the request is recorded and
    the remote service answers (or the call raises). *)
Definition send (E : environment) (rq : http_request) : Py Response :=
  fun w => (serve E (sent w) rq,
            {| sent := sent w ++ [rq]; files := files w |}).

Definition requests_post (E : environment) (url : string)
    (body : gmap string json) (auth : string * string) : Py Response :=
  send E (POST url body auth).

Definition requests_get (E : environment) (url : string)
    (auth : string * string) : Py Response :=
  send E (GET url auth).

(** [Response.raise_for_status()]: HTTPError on a client (4xx) or server
    (5xx) error status, nothing otherwise. *)
Definition raise_for_status (r : Response) : outcome unit :=
  if (400 <=? status_code r) && (status_code r <? 600)
  then Raises (HTTPError (status_code r))
  else Returns tt.

(** ** The file system *)

(** [open(path, 'wb')]: the file is created or truncated. *)
Definition open_wb (E : environment) (path : string) : Py unit :=
  fun w => match open_refused E (files w) path with
           | Some e => (Raises e, w)
           | None => (Returns tt,
                      {| sent := sent w; files := <[path := []]> (files w) |})
           end.

(** [f.write(chunk)] on the file opened at [path]. *)
Definition file_write (E : environment) (path : string) (chunk : bytes)
  : Py unit :=
  fun w => match write_refused E (files w) path chunk with
           | Some e => (Raises e, w)
           | None =>
               let content := (default [] (files w !! path) ++ chunk)%list in
               (Returns tt,
                {| sent := sent w; files := <[path := content]> (files w) |})
           end.

(** [for chunk in r.iter_content(...): f.write(chunk)] *)
Fixpoint write_chunks (E : environment) (path : string)
    (chunks : list bytes) (fault : option exn) : Py unit :=
  match chunks with
  | [] => match fault with
          | Some e => raise e
          | None => ret tt
          end
  | chunk :: rest =>
      file_write E path chunk ;;; write_chunks E path rest fault
  end.

(** ** [dataset_query] *)

(** The parameters of [dataset_query], with the types of its signature. *)
Module Args.
Record t : Type := {
  name : option string;
  authors : option string;
  description : option string;
  elements : option (list string);
  exact_elements : bool;
  doi : option string;
  min_co : option Z;
  max_co : option Z;
  min_elements : option Z;
  max_elements : option Z;
  min_atoms : option Z;
  max_atoms : option Z;
  property_types : option (list string);
  license : option (list string);
  equilibrium : option bool;
  given_sort_by : option string;
  given_sort_direction : string;
  software : option (list string);
  methods_text_filter : option (list string);
  page : Z;
  page_size : Z;
}.

(** The defaults of the signature. *)
Definition defaults : t := {|
  name := None; authors := None; description := None; elements := None;
  exact_elements := false; doi := None; min_co := None; max_co := None;
  min_elements := None; max_elements := None; min_atoms := None;
  max_atoms := None; property_types := None; license := None;
  equilibrium := None; given_sort_by := None;
  given_sort_direction := "descending"; software := None;
  methods_text_filter := None; page := 1; page_size := 10;
|}.
End Args.

(** Arguments as Python values. *)
Definition of_str (x : option string) : json := from_option JStr JNull x.
Definition of_int (x : option Z) : json := from_option JInt JNull x.
Definition of_bool (x : option bool) : json := from_option JBool JNull x.
Definition of_strs (x : option (list string)) : json :=
  from_option (fun l => JArr (JStr <$> l)) JNull x.

(** [locals()] on entry: one key per parameter. *)
Definition locals (a : Args.t) : gmap string json :=
  <["page_size" := JInt (Args.page_size a)]>
  (<["page" := JInt (Args.page a)]>
  (<["methods_text_filter" := of_strs (Args.methods_text_filter a)]>
  (<["software" := of_strs (Args.software a)]>
  (<["given_sort_direction" := JStr (Args.given_sort_direction a)]>
  (<["given_sort_by" := of_str (Args.given_sort_by a)]>
  (<["equilibrium" := of_bool (Args.equilibrium a)]>
  (<["license" := of_strs (Args.license a)]>
  (<["property_types" := of_strs (Args.property_types a)]>
  (<["max_atoms" := of_int (Args.max_atoms a)]>
  (<["min_atoms" := of_int (Args.min_atoms a)]>
  (<["max_elements" := of_int (Args.max_elements a)]>
  (<["min_elements" := of_int (Args.min_elements a)]>
  (<["max_co" := of_int (Args.max_co a)]>
  (<["min_co" := of_int (Args.min_co a)]>
  (<["doi" := of_str (Args.doi a)]>
  (<["exact_elements" := JBool (Args.exact_elements a)]>
  (<["elements" := of_strs (Args.elements a)]>
  (<["description" := of_str (Args.description a)]>
  (<["authors" := of_str (Args.authors a)]>
  (<["name" := of_str (Args.name a)]> ∅)))))))))))))))))))).

Definition query_url : string :=
  "https://materials.colabfit.org/mcp/dataset-query".
Definition credentials : string * string := ("mcp-tool", "mcp-secret").

(** [start] and [end] of the source. *)
Definition slice_start (page page_size : Z) : Z := (page - 1) * page_size.
Definition slice_end (page page_size : Z) : Z :=
  slice_start page page_size + page_size.

(** The dict built on the success path. *)
Definition success_envelope (results : json)
    (result_length page page_size total_pages : Z) : gmap string pyval :=
  <["Total Pages" := PJson (JInt total_pages)]>
  (<["Page Size" := PJson (JInt page_size)]>
  (<["Page" := PJson (JInt page)]>
  (<["Result Length" := PJson (JInt result_length)]>
  (<["Results" := PJson results]>
  (<["Success" := PTrue]> ∅))))).

(** The dict built by the handler. *)
Definition failure_envelope (e : exn) : gmap string pyval :=
  <["Results" := PExc e]> (<["Success" := PFalse]> ∅).

(** The body of the [try]. *)
Definition query_body (E : environment) (args_dict : gmap string json)
    (page page_size start end_ : Z) : Py (gmap string pyval) :=
  response <- requests_post E query_url args_dict credentials ;;
  response_json <- lift (json_body_of response) ;;
  n <- lift (py_len response_json) ;;
  total_pages <- lift (py_floordiv (n + page_size - 1) page_size) ;;
  results <- lift (py_getslice response_json start end_) ;;
  again <- lift (py_getslice response_json start end_) ;;
  result_length <- lift (py_len again) ;;
  ret (success_envelope results result_length page page_size total_pages).

Definition dataset_query (E : environment) (a : Args.t)
  : Py (gmap string pyval) :=
  let page := Args.page a in
  let page_size := Args.page_size a in
  let args_dict := locals a in
  popped <- lift (dict_pop args_dict "page") ;;
  let args_dict := popped.2 in
  popped <- lift (dict_pop args_dict "page_size") ;;
  let args_dict := popped.2 in
  let start := slice_start page page_size in
  let end_ := slice_end page page_size in
  try_except
    (query_body E args_dict page page_size start end_)
    (fun e => ret (failure_envelope e)).

(** ** [download_dataset] *)

Definition filename (dataset_id : option string) (format : string) : string :=
  if (format =? "parquet")%string
  then py_str dataset_id ++ ".tar.gz"
  else py_str dataset_id.

Definition saved_file (E : environment) (dataset_id : option string)
    (format : string) : string :=
  if (format =? "parquet")%string
  then download_dir E ++ "/" ++ filename dataset_id format
  else download_dir E ++ "/" ++ filename dataset_id format ++ ".tar.xz".

Definition download_url (format filename : string) : string :=
  "https://materials.colabfit.org/mcp/dataset-download/"
    ++ format ++ "/" ++ filename.

Definition downloaded (path : string) : gmap string pyval :=
  <["Downloaded File" := PJson (JStr path)]> (<["Success" := PTrue]> ∅).

Definition download_failed (e : exn) : gmap string pyval :=
  <["Error" := PExc e]> (<["Success" := PFalse]> ∅).

(** The result is [None] where the source falls off its end. *)
Definition download_dataset (E : environment) (dataset_id : option string)
    (format : string) : Py (option (gmap string pyval)) :=
  let filename := filename dataset_id format in
  let saved_file := saved_file E dataset_id format in
  if truthy dataset_id then
    try_except
      (let url := download_url format filename in
       r <- requests_get E url credentials ;;
       lift (raise_for_status r) ;;;
       open_wb E saved_file ;;;
       write_chunks E saved_file (content_chunks r) (content_fault r) ;;;
       ret (Some (downloaded saved_file)))
      (fun e => ret (Some (download_failed e)))
  else ret None.

(** ** Vocabulary of the specification *)

(** [k] is the ceiling of [n / d]: the least number of pages of [d] items
    that hold [n] items. *)
Definition is_ceil_div (n d k : Z) : Prop := (k - 1) * d < n <= k * d.

(** The contiguous run of [l] from index [lo] up to index [hi] (exclusive),
    clipped to what [l] has. *)
Definition clipped_slice {A} (l : list A) (lo hi : Z) : list A :=
  take (Z.to_nat (hi - lo)) (drop (Z.to_nat lo) l).

(** The request body of [dataset_query]: [args_dict] after the two pops. *)
Definition payload (a : Args.t) : gmap string json :=
  delete "page_size" (delete "page" (locals a)).

(** The filter fields, each with the argument it carries. *)
Definition filter_fields (a : Args.t) : list (string * json) :=
  [ ("name", of_str (Args.name a));
    ("authors", of_str (Args.authors a));
    ("description", of_str (Args.description a));
    ("elements", of_strs (Args.elements a));
    ("exact_elements", JBool (Args.exact_elements a));
    ("doi", of_str (Args.doi a));
    ("min_co", of_int (Args.min_co a));
    ("max_co", of_int (Args.max_co a));
    ("min_elements", of_int (Args.min_elements a));
    ("max_elements", of_int (Args.max_elements a));
    ("min_atoms", of_int (Args.min_atoms a));
    ("max_atoms", of_int (Args.max_atoms a));
    ("property_types", of_strs (Args.property_types a));
    ("license", of_strs (Args.license a));
    ("equilibrium", of_bool (Args.equilibrium a));
    ("given_sort_by", of_str (Args.given_sort_by a));
    ("given_sort_direction", JStr (Args.given_sort_direction a));
    ("software", of_strs (Args.software a));
    ("methods_text_filter", of_strs (Args.methods_text_filter a)) ].

(** The successful class of HTTP statuses (2xx). *)
Definition is_success_status (status : Z) : Prop := 200 <= status < 300.

(** The error classes of HTTP statuses: client (4xx) and server (5xx). *)
Definition is_error_status (status : Z) : Prop := 400 <= status < 600.

(** The world once [rq] has gone out. *)
Definition after_request (w : world) (rq : http_request) : world :=
  {| sent := sent w ++ [rq]; files := files w |}.

(** The request [dataset_query] makes. *)
Definition query_request (a : Args.t) : http_request :=
  POST query_url (payload a) credentials.

(** The request [download_dataset] makes. *)
Definition download_request (dataset_id : option string) (format : string)
  : http_request :=
  GET (download_url format (filename dataset_id format)) credentials.

(** ** Sample runs *)

(** The default arguments at another page and page size. *)
Definition at_page (page page_size : Z) : Args.t :=
  {| Args.name := None; Args.authors := None; Args.description := None;
     Args.elements := None; Args.exact_elements := false; Args.doi := None;
     Args.min_co := None; Args.max_co := None; Args.min_elements := None;
     Args.max_elements := None; Args.min_atoms := None;
     Args.max_atoms := None; Args.property_types := None;
     Args.license := None; Args.equilibrium := None;
     Args.given_sort_by := None; Args.given_sort_direction := "descending";
     Args.software := None; Args.methods_text_filter := None;
     Args.page := page; Args.page_size := page_size |}.

(** A remote result set of 25 dataset records. *)
Definition sample_records : list json :=
  (fun i => JObj [("id", JInt (Z.of_nat i))]) <$> seq 1 25.

(** A response with the given status whose body is [body] as JSON and
    [chunks] as a stream. *)
Definition response_with (status : Z) (body : json) (chunks : list bytes)
  : Response :=
  {| status_code := status; json_body_of := Returns body;
     content_chunks := chunks; content_fault := None |}.

(** A service that answers every request with status [status], the 25
    records and one chunk of three bytes, over a disk that never refuses. *)
Definition sample_env (status : Z) : environment :=
  {| serve := fun _ _ =>
       Returns (response_with status (JArr sample_records)
                  [[Byte.x01; Byte.x02; Byte.x03]]);
     open_refused := fun _ _ => None;
     write_refused := fun _ _ _ => None;
     download_dir := "/home/user/Downloads" |}.

(** A service that cannot be reached. *)
Definition offline_env : environment :=
  {| serve := fun _ _ => Raises (RequestException "connection refused");
     open_refused := fun _ _ => None;
     write_refused := fun _ _ _ => None;
     download_dir := "/home/user/Downloads" |}.

(** A service that answers every request 304 Not Modified, with no body. *)
Definition not_modified_env : environment :=
  {| serve := fun _ _ => Returns (response_with 304 JNull []);
     open_refused := fun _ _ => None;
     write_refused := fun _ _ _ => None;
     download_dir := "/home/user/Downloads" |}.

Definition empty_world : world := {| sent := []; files := ∅ |}.

(** ** Further vocabulary and sample runs *)

(** The same query at another page and page size. *)
Definition with_page (a : Args.t) (page page_size : Z) : Args.t :=
  {| Args.name := Args.name a; Args.authors := Args.authors a;
     Args.description := Args.description a;
     Args.elements := Args.elements a;
     Args.exact_elements := Args.exact_elements a; Args.doi := Args.doi a;
     Args.min_co := Args.min_co a; Args.max_co := Args.max_co a;
     Args.min_elements := Args.min_elements a;
     Args.max_elements := Args.max_elements a;
     Args.min_atoms := Args.min_atoms a; Args.max_atoms := Args.max_atoms a;
     Args.property_types := Args.property_types a;
     Args.license := Args.license a; Args.equilibrium := Args.equilibrium a;
     Args.given_sort_by := Args.given_sort_by a;
     Args.given_sort_direction := Args.given_sort_direction a;
     Args.software := Args.software a;
     Args.methods_text_filter := Args.methods_text_filter a;
     Args.page := page; Args.page_size := page_size |}.

(** The items under "Results" of a returned envelope; none when the call
    gave anything else. *)
Definition results_of (o : outcome (gmap string pyval)) : list json :=
  match o with
  | Returns d =>
      match d !! "Results" with
      | Some (PJson (JArr items)) => items
      | _ => []
      end
  | Raises _ => []
  end.

(** Whether a returned envelope reports success. *)
Definition succeeded (o : outcome (gmap string pyval)) : Prop :=
  exists d, o = Returns d /\ d !! "Success" = Some PTrue.

(** A service with one answer to everything, over a disk on which [open]
    is refused with [refusal] (if any) and writes are accepted. *)
Definition constant_env (answer : outcome Response) (refusal : option exn)
  : environment :=
  {| serve := fun _ _ => answer;
     open_refused := fun _ _ => refusal;
     write_refused := fun _ _ _ => None;
     download_dir := "/home/user/Downloads" |}.

(** A 200 response whose stream breaks after two chunks. *)
Definition broken_stream : Response :=
  {| status_code := 200; json_body_of := Returns JNull;
     content_chunks := [[Byte.x01; Byte.x02]; [Byte.x03]];
     content_fault := Some (RequestException "connection broken") |}.

(** A disk that already holds an older download. *)
Definition stale_world : world :=
  {| sent := [];
     files := {[ "/home/user/Downloads/DS_abc123_0.tar.gz" := [Byte.xff] ]} |}.

(** * Properties *)

(** ** Arithmetic and slicing *)

Lemma ceil_div_floordiv (n d : Z) :
  1 <= d -> is_ceil_div n d ((n + d - 1) / d).
Proof.
  intros Hd. unfold is_ceil_div.
  pose proof (Z.div_mod (n + d - 1) d ltac:(lia)) as Hdm.
  pose proof (Z.mod_pos_bound (n + d - 1) d ltac:(lia)) as Hr.
  nia.
Qed.

Lemma is_ceil_div_unique (n d k k' : Z) :
  1 <= d -> is_ceil_div n d k -> is_ceil_div n d k' -> k = k'.
Proof. unfold is_ceil_div. intros Hd H H'. nia. Qed.

Lemma adjust_index_nonneg (len i : Z) :
  0 <= i -> adjust_index len i = Z.min i len.
Proof.
  intros Hi. unfold adjust_index.
  destruct (Z.ltb_spec i 0); [lia | reflexivity].
Qed.

(** Between bounds that are not negative, Python's slice is the clipped
    run. *)
Lemma py_slice_clipped {A} (l : list A) (lo hi : Z) :
  0 <= lo -> 0 <= hi -> py_slice l lo hi = clipped_slice l lo hi.
Proof.
  intros Hlo Hhi. unfold py_slice, clipped_slice.
  rewrite !adjust_index_nonneg by lia.
  destruct (Z.ltb_spec (Z.min lo (Z.of_nat (length l)))
                       (Z.min hi (Z.of_nat (length l)))) as [Hlt | Hge].
  - assert (Hlo' : Z.min lo (Z.of_nat (length l)) = lo) by lia.
    rewrite Hlo'.
    destruct (Z.le_gt_cases hi (Z.of_nat (length l))) as [Hin | Hout].
    + now replace (Z.min hi (Z.of_nat (length l))) with hi by lia.
    + replace (Z.min hi (Z.of_nat (length l))) with (Z.of_nat (length l))
        by lia.
      rewrite !take_ge; [reflexivity | |]; rewrite length_drop; lia.
  - destruct (Z.le_gt_cases hi lo) as [Hempty | Hsome].
    + now replace (Z.to_nat (hi - lo)) with 0%nat by lia.
    + rewrite drop_ge by lia. now rewrite take_nil.
Qed.

(** The clipped run, item by item. *)
Lemma clipped_slice_lookup {A} (l : list A) (lo hi : Z) (i : nat) :
  0 <= lo ->
  clipped_slice l lo hi !! i =
    if (Z.of_nat i <? hi - lo) then l !! (Z.to_nat lo + i)%nat else None.
Proof.
  intros Hlo. unfold clipped_slice.
  destruct (Z.ltb_spec (Z.of_nat i) (hi - lo)) as [Hin | Hout].
  - rewrite lookup_take_lt by lia. apply lookup_drop.
  - apply lookup_take_ge. lia.
Qed.

Lemma clipped_slice_past_end {A} (l : list A) (lo hi : Z) :
  Z.of_nat (length l) <= lo -> clipped_slice l lo hi = [].
Proof.
  intros Hpast. unfold clipped_slice.
  rewrite drop_ge by lia. apply take_nil.
Qed.

(** A slice that stops at 0 is empty. *)
Lemma py_slice_stop_zero {A} (l : list A) (lo : Z) : py_slice l lo 0 = [].
Proof.
  unfold py_slice.
  replace (adjust_index (Z.of_nat (length l)) 0) with 0
    by (unfold adjust_index; simpl; lia).
  destruct (Z.ltb_spec (adjust_index (Z.of_nat (length l)) lo) 0) as [Hneg|];
    [| reflexivity].
  unfold adjust_index in Hneg. destruct (Z.ltb_spec lo 0); lia.
Qed.

(** ** Running [dataset_query] *)

Lemma locals_page (a : Args.t) :
  locals a !! "page" = Some (JInt (Args.page a)).
Proof. unfold locals. now rewrite lookup_insert_ne, lookup_insert_eq. Qed.

Lemma locals_page_size (a : Args.t) :
  locals a !! "page_size" = Some (JInt (Args.page_size a)).
Proof. unfold locals. now rewrite lookup_insert_eq. Qed.

(** Both pops find their key, so the code before the [try] never raises. *)
Lemma dataset_query_eq (E : environment) (a : Args.t) (w : world) :
  dataset_query E a w =
    try_except
      (query_body E (payload a) (Args.page a) (Args.page_size a)
         (slice_start (Args.page a) (Args.page_size a))
         (slice_end (Args.page a) (Args.page_size a)))
      (fun e => ret (failure_envelope e)) w.
Proof.
  unfold dataset_query, bind at 1, lift at 1, dict_pop at 1.
  rewrite locals_page. cbn [snd].
  unfold bind at 1, lift at 1, dict_pop.
  rewrite lookup_delete_ne by discriminate.
  rewrite locals_page_size. reflexivity.
Qed.

(** The body of the [try] sends exactly one request, whatever follows. *)
Lemma query_body_world (E : environment) (body : gmap string json)
    (page page_size start end_ : Z) (w : world) :
  (query_body E body page page_size start end_ w).2 =
    after_request w (POST query_url body credentials).
Proof.
  unfold query_body, requests_post, send, bind, lift, ret, after_request.
  cbn [fst snd].
  destruct (serve E (sent w) _) as [r | e]; [| reflexivity].
  destruct (json_body_of r) as [j | e]; [| reflexivity].
  destruct (py_len j) as [n | e]; [| reflexivity].
  destruct (py_floordiv _ _) as [t | e]; [| reflexivity].
  destruct (py_getslice j start end_) as [s | e]; [| reflexivity].
  destruct (py_len s); reflexivity.
Qed.

(** The body of the [try] on a response that decodes to a list. *)
Lemma query_body_list (E : environment) (body : gmap string json)
    (page page_size start end_ : Z) (w : world) (r : Response)
    (l : list json) :
  serve E (sent w) (POST query_url body credentials) = Returns r ->
  json_body_of r = Returns (JArr l) ->
  page_size <> 0 ->
  (query_body E body page page_size start end_ w).1 =
    Returns (success_envelope
               (JArr (py_slice l start end_))
               (Z.of_nat (length (py_slice l start end_)))
               page page_size
               ((Z.of_nat (length l) + page_size - 1) / page_size)).
Proof.
  intros Hserve Hjson Hps.
  unfold query_body, requests_post, send, bind, lift, ret. cbn [fst snd].
  rewrite Hserve, Hjson. cbn [py_len py_getslice].
  unfold py_floordiv. destruct (Z.eqb_spec page_size 0); [contradiction |].
  reflexivity.
Qed.

(** The handler turns whatever the body raises into the failure dict. *)
Lemma try_except_result {A} (body : Py A) (handler : exn -> A) (w : world) :
  (try_except body (fun e => ret (handler e)) w).1 =
    match (body w).1 with
    | Returns a => Returns a
    | Raises e => Returns (handler e)
    end.
Proof.
  unfold try_except, ret. destruct (body w) as [[a | e] w']; reflexivity.
Qed.

Lemma try_except_world {A} (body : Py A) (handler : exn -> A) (w : world) :
  (try_except body (fun e => ret (handler e)) w).2 = (body w).2.
Proof.
  unfold try_except, ret. destruct (body w) as [[a | e] w']; reflexivity.
Qed.

Lemma dataset_query_list (E : environment) (a : Args.t) (w : world)
    (r : Response) (l : list json) :
  serve E (sent w) (query_request a) = Returns r ->
  json_body_of r = Returns (JArr l) ->
  Args.page_size a <> 0 ->
  let start := slice_start (Args.page a) (Args.page_size a) in
  let end_ := slice_end (Args.page a) (Args.page_size a) in
  (dataset_query E a w).1 =
    Returns (success_envelope
               (JArr (py_slice l start end_))
               (Z.of_nat (length (py_slice l start end_)))
               (Args.page a) (Args.page_size a)
               ((Z.of_nat (length l) + Args.page_size a - 1)
                  / Args.page_size a)).
Proof.
  intros Hserve Hjson Hps start end_.
  rewrite dataset_query_eq, try_except_result.
  now rewrite (query_body_list _ _ _ _ _ _ _ r l Hserve Hjson Hps).
Qed.

Lemma payload_fields (a : Args.t) : payload a = list_to_map (filter_fields a).
Proof. vm_compute. reflexivity. Qed.

Lemma success_envelope_fields (results : json)
    (result_length page page_size total_pages : Z) :
  let d := success_envelope results result_length page page_size total_pages in
  d !! "Success" = Some PTrue
  /\ d !! "Results" = Some (PJson results)
  /\ d !! "Result Length" = Some (PJson (JInt result_length))
  /\ d !! "Page" = Some (PJson (JInt page))
  /\ d !! "Page Size" = Some (PJson (JInt page_size))
  /\ d !! "Total Pages" = Some (PJson (JInt total_pages)).
Proof. repeat split; vm_compute; reflexivity. Qed.

Lemma failure_envelope_fields (e : exn) :
  failure_envelope e !! "Success" = Some PFalse
  /\ failure_envelope e !! "Results" = Some (PExc e).
Proof. split; vm_compute; reflexivity. Qed.

(** With [page_size = 0] and a response that has a length, the division
    is what fails. *)
Lemma dataset_query_zero_division (E : environment) (a : Args.t) (w : world)
    (r : Response) (j : json) (n : Z) :
  Args.page_size a = 0 ->
  serve E (sent w) (query_request a) = Returns r ->
  json_body_of r = Returns j ->
  py_len j = Returns n ->
  (dataset_query E a w).1 = Returns (failure_envelope ZeroDivisionError).
Proof.
  intros Hps Hserve Hjson Hlen.
  rewrite dataset_query_eq, try_except_result.
  unfold query_body, requests_post, send, bind, lift, ret. cbn [fst snd].
  unfold query_request in Hserve. rewrite Hserve, Hjson, Hlen, Hps.
  reflexivity.
Qed.

(** The result of [dataset_query] is a dict in every case. *)
Lemma dataset_query_returns (E : environment) (a : Args.t) (w : world) :
  exists d, (dataset_query E a w).1 = Returns d
    /\ (d !! "Success" = Some PTrue
        \/ exists e, d = failure_envelope e).
Proof.
  rewrite dataset_query_eq, try_except_result.
  destruct (query_body _ _ _ _ _ _ w).1 as [d | e] eqn:Hbody.
  - exists d. split; [reflexivity | left].
    revert Hbody.
    unfold query_body, requests_post, send, bind, lift, ret. cbn [fst snd].
    destruct (serve E (sent w) _) as [r | e]; [| discriminate].
    destruct (json_body_of r) as [j | e]; [| discriminate].
    destruct (py_len j) as [n | e]; [| discriminate].
    destruct (py_floordiv _ _) as [t | e]; [| discriminate].
    destruct (py_getslice j _ _) as [s | e]; [| discriminate].
    destruct (py_len s) as [m | e]; [| discriminate].
    cbn [fst]. intros [= <-]. apply success_envelope_fields.
  - exists (failure_envelope e). split; [reflexivity | right; now exists e].
Qed.

(** ** Pagination *)

(** C1. For [page >= 1] and [page_size >= 1], when the remote endpoint
    answers with a list [l] of length N, [dataset_query] returns a success
    envelope in which "Total Pages" is the ceiling of N / page_size,
    "Results" is the contiguous run of [l] from index (page-1)*page_size
    to (page-1)*page_size + page_size, clipped to what [l] has, and
    "Result Length" is the length of "Results". *)
Theorem dataset_query_page (E : environment) (a : Args.t) (w : world)
    (r : Response) (l : list json) :
  1 <= Args.page a ->
  1 <= Args.page_size a ->
  serve E (sent w) (query_request a) = Returns r ->
  json_body_of r = Returns (JArr l) ->
  exists (d : gmap string pyval) (results : list json) (total_pages : Z),
    (dataset_query E a w).1 = Returns d
    /\ d !! "Success" = Some PTrue
    /\ d !! "Total Pages" = Some (PJson (JInt total_pages))
    /\ is_ceil_div (Z.of_nat (length l)) (Args.page_size a) total_pages
    /\ d !! "Results" = Some (PJson (JArr results))
    /\ results =
         clipped_slice l ((Args.page a - 1) * Args.page_size a)
           ((Args.page a - 1) * Args.page_size a + Args.page_size a)
    /\ d !! "Result Length" = Some (PJson (JInt (Z.of_nat (length results)))).
Proof.
  intros Hpage Hps Hserve Hjson.
  pose proof (dataset_query_list E a w r l Hserve Hjson ltac:(lia)) as Hrun.
  cbv zeta in Hrun. unfold slice_end, slice_start in Hrun.
  rewrite py_slice_clipped in Hrun by nia.
  eexists _, _, _. split; [exact Hrun |].
  pose proof (success_envelope_fields
                (JArr (clipped_slice l ((Args.page a - 1) * Args.page_size a)
                   ((Args.page a - 1) * Args.page_size a + Args.page_size a)))
                (Z.of_nat (length (clipped_slice l
                   ((Args.page a - 1) * Args.page_size a)
                   ((Args.page a - 1) * Args.page_size a + Args.page_size a))))
                (Args.page a) (Args.page_size a)
                ((Z.of_nat (length l) + Args.page_size a - 1)
                   / Args.page_size a))
    as (HS & HR & HL & _ & _ & HT).
  repeat split; try assumption; try reflexivity;
    apply ceil_div_floordiv; assumption.
Qed.

Lemma dataset_query_page_witness :
  exists (d : gmap string pyval) (results : list json) (total_pages : Z),
    (dataset_query (sample_env 200) (at_page 3 10) empty_world).1 = Returns d
    /\ d !! "Success" = Some PTrue
    /\ d !! "Total Pages" = Some (PJson (JInt total_pages))
    /\ is_ceil_div (Z.of_nat (length sample_records)) 10 total_pages
    /\ d !! "Results" = Some (PJson (JArr results))
    /\ results = clipped_slice sample_records ((3 - 1) * 10) ((3 - 1) * 10 + 10)
    /\ d !! "Result Length" = Some (PJson (JInt (Z.of_nat (length results)))).
Proof.
  apply (dataset_query_page (sample_env 200) (at_page 3 10) empty_world
           (response_with 200 (JArr sample_records)
              [[Byte.x01; Byte.x02; Byte.x03]]) sample_records).
  - simpl. lia.
  - simpl. lia.
  - reflexivity.
  - reflexivity.
Defined.

(** C3. For [page >= 1] and [page_size >= 1] with
    (page-1)*page_size >= N, the envelope has "Success" true, empty
    "Results", "Result Length" 0 and "Total Pages" the ceiling of
    N / page_size over the full remote list; page 4 of size 10 over 25 items
    gives "Total Pages" 3. *)
Theorem dataset_query_past_last_page (E : environment) (a : Args.t)
    (w : world) (r : Response) (l : list json) :
  1 <= Args.page a ->
  1 <= Args.page_size a ->
  serve E (sent w) (query_request a) = Returns r ->
  json_body_of r = Returns (JArr l) ->
  Z.of_nat (length l) <= (Args.page a - 1) * Args.page_size a ->
  exists (d : gmap string pyval) (total_pages : Z),
    (dataset_query E a w).1 = Returns d
    /\ d !! "Success" = Some PTrue
    /\ d !! "Results" = Some (PJson (JArr []))
    /\ d !! "Result Length" = Some (PJson (JInt 0))
    /\ d !! "Total Pages" = Some (PJson (JInt total_pages))
    /\ is_ceil_div (Z.of_nat (length l)) (Args.page_size a) total_pages
    /\ (Args.page a = 4 -> Args.page_size a = 10 -> length l = 25%nat ->
        total_pages = 3).
Proof.
  intros Hpage Hps Hserve Hjson Hpast.
  pose proof (dataset_query_list E a w r l Hserve Hjson ltac:(lia)) as Hrun.
  cbv zeta in Hrun. unfold slice_end, slice_start in Hrun.
  rewrite py_slice_clipped in Hrun by nia.
  rewrite clipped_slice_past_end in Hrun by assumption.
  eexists _, _. split; [exact Hrun |].
  pose proof (success_envelope_fields (JArr []) (Z.of_nat (length (@nil json)))
                (Args.page a) (Args.page_size a)
                ((Z.of_nat (length l) + Args.page_size a - 1)
                   / Args.page_size a))
    as (HS & HR & HL & _ & _ & HT).
  repeat split; try assumption; try (apply ceil_div_floordiv; assumption).
  intros _ Hten Hlen. rewrite Hten, Hlen. reflexivity.
Qed.

Lemma dataset_query_past_last_page_witness :
  exists (d : gmap string pyval) (total_pages : Z),
    (dataset_query (sample_env 200) (at_page 4 10) empty_world).1 = Returns d
    /\ d !! "Success" = Some PTrue
    /\ d !! "Results" = Some (PJson (JArr []))
    /\ d !! "Result Length" = Some (PJson (JInt 0))
    /\ d !! "Total Pages" = Some (PJson (JInt total_pages))
    /\ is_ceil_div (Z.of_nat (length sample_records)) 10 total_pages
    /\ (4 = 4 -> 10 = 10 -> length sample_records = 25%nat ->
        total_pages = 3).
Proof.
  apply (dataset_query_past_last_page (sample_env 200) (at_page 4 10)
           empty_world
           (response_with 200 (JArr sample_records)
              [[Byte.x01; Byte.x02; Byte.x03]]) sample_records).
  - simpl. lia.
  - simpl. lia.
  - reflexivity.
  - reflexivity.
  - vm_compute. discriminate.
Defined.

(** C10. For [page = 0] and [page_size >= 1], over a remote list of length
    N >= 1, the slice bounds are [-page_size] and 0, and the envelope has
    "Success" true, empty "Results" and "Result Length" 0: it is neither
    the first page, which is not empty, nor an error. *)
Theorem dataset_query_page_zero (E : environment) (a : Args.t) (w : world)
    (r : Response) (l : list json) :
  Args.page a = 0 ->
  1 <= Args.page_size a ->
  serve E (sent w) (query_request a) = Returns r ->
  json_body_of r = Returns (JArr l) ->
  (1 <= length l)%nat ->
  slice_start (Args.page a) (Args.page_size a) = - Args.page_size a
  /\ slice_end (Args.page a) (Args.page_size a) = 0
  /\ exists d : gmap string pyval,
       (dataset_query E a w).1 = Returns d
       /\ d !! "Success" = Some PTrue
       /\ d !! "Results" = Some (PJson (JArr []))
       /\ d !! "Result Length" = Some (PJson (JInt 0))
       /\ clipped_slice l 0 (Args.page_size a) <> [].
Proof.
  intros Hpage Hps Hserve Hjson Hlen.
  assert (Hstart : slice_start (Args.page a) (Args.page_size a)
                   = - Args.page_size a)
    by (unfold slice_start; rewrite Hpage; lia).
  assert (Hend : slice_end (Args.page a) (Args.page_size a) = 0)
    by (unfold slice_end; rewrite Hstart; lia).
  split; [exact Hstart |]. split; [exact Hend |].
  pose proof (dataset_query_list E a w r l Hserve Hjson ltac:(lia)) as Hrun.
  cbv zeta in Hrun. rewrite Hend, py_slice_stop_zero in Hrun.
  eexists. split; [exact Hrun |].
  pose proof (success_envelope_fields (JArr []) (Z.of_nat (length (@nil json)))
                (Args.page a) (Args.page_size a)
                ((Z.of_nat (length l) + Args.page_size a - 1)
                   / Args.page_size a))
    as (HS & HR & HL & _).
  repeat split; try assumption.
  unfold clipped_slice. destruct l as [| x l']; [simpl in Hlen; lia |].
  replace (Z.to_nat (Args.page_size a - 0))
    with (S (Z.to_nat (Args.page_size a - 1))) by lia.
  discriminate.
Qed.

Lemma dataset_query_page_zero_witness :
  slice_start 0 10 = - 10
  /\ slice_end 0 10 = 0
  /\ exists d : gmap string pyval,
       (dataset_query (sample_env 200) (at_page 0 10) empty_world).1
         = Returns d
       /\ d !! "Success" = Some PTrue
       /\ d !! "Results" = Some (PJson (JArr []))
       /\ d !! "Result Length" = Some (PJson (JInt 0))
       /\ clipped_slice sample_records 0 10 <> [].
Proof.
  apply (dataset_query_page_zero (sample_env 200) (at_page 0 10) empty_world
           (response_with 200 (JArr sample_records)
              [[Byte.x01; Byte.x02; Byte.x03]]) sample_records).
  - reflexivity.
  - simpl. lia.
  - reflexivity.
  - reflexivity.
  - simpl. lia.
Defined.

(** ** Errors of [dataset_query] *)

Lemma query_body_post_raises (E : environment) (body : gmap string json)
    (page page_size start end_ : Z) (w : world) (e : exn) :
  serve E (sent w) (POST query_url body credentials) = Raises e ->
  (query_body E body page page_size start end_ w).1 = Raises e.
Proof.
  intros Hserve.
  unfold query_body, requests_post, send, bind. cbn [fst snd].
  now rewrite Hserve.
Qed.

Lemma query_body_json_raises (E : environment) (body : gmap string json)
    (page page_size start end_ : Z) (w : world) (r : Response) (e : exn) :
  serve E (sent w) (POST query_url body credentials) = Returns r ->
  json_body_of r = Raises e ->
  (query_body E body page page_size start end_ w).1 = Raises e.
Proof.
  intros Hserve Hjson.
  unfold query_body, requests_post, send, bind, lift. cbn [fst snd].
  now rewrite Hserve, Hjson.
Qed.

Lemma query_body_slice_raises (E : environment) (body : gmap string json)
    (page page_size start end_ : Z) (w : world) (r : Response) (j : json)
    (n : Z) (e : exn) :
  serve E (sent w) (POST query_url body credentials) = Returns r ->
  json_body_of r = Returns j ->
  py_len j = Returns n ->
  page_size <> 0 ->
  py_getslice j start end_ = Raises e ->
  (query_body E body page page_size start end_ w).1 = Raises e.
Proof.
  intros Hserve Hjson Hlen Hps Hslice.
  unfold query_body, requests_post, send, bind, lift. cbn [fst snd].
  rewrite Hserve, Hjson, Hlen. unfold py_floordiv.
  destruct (Z.eqb_spec page_size 0); [contradiction |].
  now rewrite Hslice.
Qed.

(** C2. [dataset_query] never raises: it always returns a dict, either a
    success envelope or {"Success": False, "Results": e}.  In particular an
    exception raised by the network call, by decoding the response, or by
    slicing the decoded value is caught and comes back as that failure
    dict. *)
Theorem dataset_query_never_raises (E : environment) (a : Args.t)
    (w : world) :
  (exists d : gmap string pyval,
      (dataset_query E a w).1 = Returns d
      /\ (d !! "Success" = Some PTrue
          \/ exists e, d = failure_envelope e
                       /\ d !! "Success" = Some PFalse
                       /\ d !! "Results" = Some (PExc e)))
  /\ (forall e,
        serve E (sent w) (query_request a) = Raises e ->
        (dataset_query E a w).1 = Returns (failure_envelope e))
  /\ (forall r e,
        serve E (sent w) (query_request a) = Returns r ->
        json_body_of r = Raises e ->
        (dataset_query E a w).1 = Returns (failure_envelope e))
  /\ (forall r j n e,
        serve E (sent w) (query_request a) = Returns r ->
        json_body_of r = Returns j ->
        py_len j = Returns n ->
        Args.page_size a <> 0 ->
        py_getslice j (slice_start (Args.page a) (Args.page_size a))
          (slice_end (Args.page a) (Args.page_size a)) = Raises e ->
        (dataset_query E a w).1 = Returns (failure_envelope e)).
Proof.
  split; [| split; [| split]].
  - destruct (dataset_query_returns E a w) as (d & Hd & [Hok | [e He]]).
    + exists d. split; [exact Hd | now left].
    + exists d. split; [exact Hd | right]. exists e. subst d.
      split; [reflexivity | apply failure_envelope_fields].
  - intros e Hserve.
    rewrite dataset_query_eq, try_except_result.
    now rewrite (query_body_post_raises _ _ _ _ _ _ _ e Hserve).
  - intros r e Hserve Hjson.
    rewrite dataset_query_eq, try_except_result.
    now rewrite (query_body_json_raises _ _ _ _ _ _ _ r e Hserve Hjson).
  - intros r j n e Hserve Hjson Hlen Hps Hslice.
    rewrite dataset_query_eq, try_except_result.
    now rewrite (query_body_slice_raises _ _ _ _ _ _ _ r j n e
                   Hserve Hjson Hlen Hps Hslice).
Qed.

(** C9. With [page_size = 0], [dataset_query] returns the failure dict
    {"Success": False, "Results": e}; when the remote call and the decoding
    succeed and the decoded value has a length, [e] is the ZeroDivisionError
    of the total-pages computation. *)
Theorem dataset_query_page_size_zero (E : environment) (a : Args.t)
    (w : world) :
  Args.page_size a = 0 ->
  exists e,
    (dataset_query E a w).1 = Returns (failure_envelope e)
    /\ failure_envelope e !! "Success" = Some PFalse
    /\ failure_envelope e !! "Results" = Some (PExc e)
    /\ (forall r j n,
          serve E (sent w) (query_request a) = Returns r ->
          json_body_of r = Returns j ->
          py_len j = Returns n ->
          e = ZeroDivisionError).
Proof.
  intros Hps.
  assert (Hrun : exists e, (dataset_query E a w).1
                           = Returns (failure_envelope e)
                 /\ (forall r j n,
                       serve E (sent w) (query_request a) = Returns r ->
                       json_body_of r = Returns j ->
                       py_len j = Returns n ->
                       e = ZeroDivisionError)).
  { rewrite dataset_query_eq, try_except_result.
    unfold query_body, query_request, requests_post, send, bind, lift, ret.
    cbn [fst snd]. rewrite Hps.
    destruct (serve E (sent w) _) as [r | e] eqn:Hserve.
    - destruct (json_body_of r) as [j | e] eqn:Hjson.
      + destruct (py_len j) as [n | e] eqn:Hlen.
        * exists ZeroDivisionError. split; reflexivity.
        * exists e. split; [reflexivity |]. intros r' j' n' Hr Hj Hn.
          congruence.
      + exists e. split; [reflexivity |]. intros r' j' n' Hr Hj Hn.
        congruence.
    - exists e. split; [reflexivity |]. discriminate. }
  destruct Hrun as (e & Hrun & Hzero).
  exists e. split; [exact Hrun |].
  split; [apply failure_envelope_fields |].
  split; [apply failure_envelope_fields | exact Hzero].
Qed.

Lemma dataset_query_page_size_zero_witness :
  exists e,
    (dataset_query (sample_env 200) (at_page 1 0) empty_world).1
      = Returns (failure_envelope e)
    /\ failure_envelope e !! "Success" = Some PFalse
    /\ failure_envelope e !! "Results" = Some (PExc e)
    /\ (forall r j n,
          serve (sample_env 200) (sent empty_world)
            (query_request (at_page 1 0)) = Returns r ->
          json_body_of r = Returns j ->
          py_len j = Returns n ->
          e = ZeroDivisionError).
Proof.
  apply (dataset_query_page_size_zero (sample_env 200) (at_page 1 0)
           empty_world).
  reflexivity.
Defined.

(** ** The request of [dataset_query] *)

(** The names of the filter fields. *)
Lemma filter_field_names (a : Args.t) :
  (filter_fields a).*1 =
    [ "name"; "authors"; "description"; "elements"; "exact_elements"; "doi";
      "min_co"; "max_co"; "min_elements"; "max_elements"; "min_atoms";
      "max_atoms"; "property_types"; "license"; "equilibrium";
      "given_sort_by"; "given_sort_direction"; "software";
      "methods_text_filter" ].
Proof. reflexivity. Qed.

(** C4. [dataset_query] sends exactly one request, a POST to the query
    endpoint, whose body holds every filter field with the argument it was
    given (name, authors, description, elements, exact_elements, doi, min_co,
    max_co, min_elements, max_elements, min_atoms, max_atoms, property_types,
    license, equilibrium, given_sort_by, given_sort_direction, software,
    methods_text_filter) and holds neither "page" nor "page_size". *)
Theorem dataset_query_payload (E : environment) (a : Args.t) (w : world) :
  exists body : gmap string json,
    sent (dataset_query E a w).2
      = (sent w ++ [POST query_url body credentials])%list
    /\ body = list_to_map (filter_fields a)
    /\ (forall k v, (k, v) ∈ filter_fields a -> body !! k = Some v)
    /\ dom body =
         list_to_set
           [ "name"; "authors"; "description"; "elements"; "exact_elements";
             "doi"; "min_co"; "max_co"; "min_elements"; "max_elements";
             "min_atoms"; "max_atoms"; "property_types"; "license";
             "equilibrium"; "given_sort_by"; "given_sort_direction";
             "software"; "methods_text_filter" ]
    /\ body !! "page" = None
    /\ body !! "page_size" = None.
Proof.
  exists (payload a). split; [| split; [| split; [| split; [| split]]]].
  - rewrite dataset_query_eq, try_except_world, query_body_world.
    reflexivity.
  - apply payload_fields.
  - intros k v Hin. rewrite payload_fields.
    apply elem_of_list_to_map_1; [| exact Hin].
    rewrite filter_field_names. refine (bool_decide_unpack _ _).
    vm_compute. exact I.
  - rewrite payload_fields, dom_list_to_map_L, filter_field_names.
    reflexivity.
  - unfold payload. rewrite lookup_delete_ne by discriminate.
    apply lookup_delete_eq.
  - unfold payload. apply lookup_delete_eq.
Qed.

(** ** Determinism of [dataset_query] *)

(** C8. Two invocations of [dataset_query] with the same arguments, to
    which the remote endpoint answers with the same result list, return the
    same envelope, whatever else differs between the two runs. *)
Theorem dataset_query_deterministic (E1 E2 : environment) (a : Args.t)
    (w1 w2 : world) (r1 r2 : Response) (l : list json) :
  serve E1 (sent w1) (query_request a) = Returns r1 ->
  json_body_of r1 = Returns (JArr l) ->
  serve E2 (sent w2) (query_request a) = Returns r2 ->
  json_body_of r2 = Returns (JArr l) ->
  (dataset_query E1 a w1).1 = (dataset_query E2 a w2).1.
Proof.
  intros Hs1 Hj1 Hs2 Hj2.
  destruct (Z.eq_dec (Args.page_size a) 0) as [Hzero | Hps].
  - rewrite (dataset_query_zero_division E1 a w1 r1 (JArr l) _
               Hzero Hs1 Hj1 eq_refl).
    now rewrite (dataset_query_zero_division E2 a w2 r2 (JArr l) _
                   Hzero Hs2 Hj2 eq_refl).
  - rewrite (dataset_query_list E1 a w1 r1 l Hs1 Hj1 Hps).
    now rewrite (dataset_query_list E2 a w2 r2 l Hs2 Hj2 Hps).
Qed.

Lemma dataset_query_deterministic_witness :
  (dataset_query (sample_env 200) (at_page 2 10) empty_world).1 =
  (dataset_query (sample_env 201) (at_page 2 10)
     (after_request empty_world (query_request (at_page 1 10)))).1.
Proof.
  apply (dataset_query_deterministic (sample_env 200) (sample_env 201)
           (at_page 2 10) empty_world
           (after_request empty_world (query_request (at_page 1 10)))
           (response_with 200 (JArr sample_records)
              [[Byte.x01; Byte.x02; Byte.x03]])
           (response_with 201 (JArr sample_records)
              [[Byte.x01; Byte.x02; Byte.x03]])
           sample_records); reflexivity.
Defined.

(** ** Running [download_dataset] *)

Lemma truthy_nonempty (id : string) : id <> "" -> truthy (Some id) = true.
Proof. destruct id; [contradiction | reflexivity]. Qed.

Lemma raise_for_status_error (r : Response) :
  is_error_status (status_code r) ->
  raise_for_status r = Raises (HTTPError (status_code r)).
Proof.
  unfold is_error_status, raise_for_status. intros [Hlo Hhi].
  destruct (Z.leb_spec 400 (status_code r)); [| lia].
  destruct (Z.ltb_spec (status_code r) 600); [reflexivity | lia].
Qed.

Lemma raise_for_status_other (r : Response) :
  ~ is_error_status (status_code r) -> raise_for_status r = Returns tt.
Proof.
  unfold is_error_status, raise_for_status. intros Hnot.
  destruct (Z.leb_spec 400 (status_code r)); [| reflexivity].
  destruct (Z.ltb_spec (status_code r) 600); [lia | reflexivity].
Qed.

(** Writing touches neither the requests sent nor any file but [path]. *)
Lemma file_write_sent (E : environment) (path : string) (chunk : bytes)
    (w : world) :
  sent (file_write E path chunk w).2 = sent w.
Proof.
  unfold file_write. destruct (write_refused E _ _ _); reflexivity.
Qed.

Lemma file_write_other (E : environment) (path other : string)
    (chunk : bytes) (w : world) :
  other <> path ->
  files (file_write E path chunk w).2 !! other = files w !! other.
Proof.
  intros Hne. unfold file_write.
  destruct (write_refused E _ _ _); [reflexivity |].
  cbn [snd files]. now rewrite lookup_insert_ne.
Qed.

Lemma file_write_keeps (E : environment) (path : string) (chunk : bytes)
    (w : world) :
  is_Some (files w !! path) ->
  is_Some (files (file_write E path chunk w).2 !! path).
Proof.
  intros Hsome. unfold file_write.
  destruct (write_refused E _ _ _); [exact Hsome |].
  cbn [snd files]. rewrite lookup_insert_eq. eauto.
Qed.

Lemma write_chunks_sent (E : environment) (path : string)
    (chunks : list bytes) (fault : option exn) (w : world) :
  sent (write_chunks E path chunks fault w).2 = sent w.
Proof.
  revert w. induction chunks as [| chunk rest IH]; intros w.
  - simpl. destruct fault; reflexivity.
  - simpl. unfold bind.
    pose proof (file_write_sent E path chunk w) as Hw.
    destruct (file_write E path chunk w) as [[[] | e] w'].
    + rewrite IH. exact Hw.
    + exact Hw.
Qed.

Lemma write_chunks_other (E : environment) (path other : string)
    (chunks : list bytes) (fault : option exn) (w : world) :
  other <> path ->
  files (write_chunks E path chunks fault w).2 !! other = files w !! other.
Proof.
  intros Hne. revert w. induction chunks as [| chunk rest IH]; intros w.
  - simpl. destruct fault; reflexivity.
  - simpl. unfold bind.
    pose proof (file_write_other E path other chunk w Hne) as Hw.
    destruct (file_write E path chunk w) as [[[] | e] w'].
    + rewrite IH. exact Hw.
    + exact Hw.
Qed.

Lemma write_chunks_keeps (E : environment) (path : string)
    (chunks : list bytes) (fault : option exn) (w : world) :
  is_Some (files w !! path) ->
  is_Some (files (write_chunks E path chunks fault w).2 !! path).
Proof.
  revert w. induction chunks as [| chunk rest IH]; intros w Hsome.
  - simpl. destruct fault; exact Hsome.
  - simpl. unfold bind.
    pose proof (file_write_keeps E path chunk w Hsome) as Hw.
    destruct (file_write E path chunk w) as [[[] | e] w'].
    + apply IH. exact Hw.
    + exact Hw.
Qed.

(** When every write is accepted, the file grows by the chunks in order. *)
Lemma write_chunks_content (E : environment) (path : string)
    (chunks : list bytes) (fault : option exn) (w w' : world) :
  write_chunks E path chunks fault w = (Returns tt, w') ->
  files w' !! path
    = Some (default [] (files w !! path) ++ concat chunks)%list
    \/ chunks = [] /\ w' = w.
Proof.
  revert w. induction chunks as [| chunk rest IH]; intros w Hrun.
  - right. simpl in Hrun. destruct fault; [discriminate |].
    unfold ret in Hrun. split; congruence.
  - left. simpl in Hrun. unfold bind in Hrun.
    destruct (file_write E path chunk w) as [[[] | e] w1] eqn:Hw;
      [| discriminate].
    unfold file_write in Hw.
    destruct (write_refused E _ _ _); [discriminate |].
    injection Hw as <-.
    destruct (IH _ Hrun) as [Hrest | [-> ->]].
    + rewrite Hrest. cbn [files]. rewrite lookup_insert_eq. cbn [default].
      simpl concat. unfold id. now rewrite <- (assoc_L (++)).
    + cbn [files]. rewrite lookup_insert_eq. simpl concat.
      now rewrite (right_id_L [] (++)).
Qed.

(** The part of [download_dataset] that runs once the id is known to be
    there: one GET, then the status check. *)
Lemma download_dataset_run (E : environment) (dataset_id : option string)
    (format : string) (w : world) :
  truthy dataset_id = true ->
  download_dataset E dataset_id format w =
    let w1 := after_request w (download_request dataset_id format) in
    let path := saved_file E dataset_id format in
    match serve E (sent w) (download_request dataset_id format) with
    | Raises e => (Returns (Some (download_failed e)), w1)
    | Returns r =>
        match raise_for_status r with
        | Raises e => (Returns (Some (download_failed e)), w1)
        | Returns _ =>
            try_except
              (open_wb E path ;;;
               write_chunks E path (content_chunks r) (content_fault r) ;;;
               ret (Some (downloaded path)))
              (fun e => ret (Some (download_failed e))) w1
        end
    end.
Proof.
  intros Hid. unfold download_dataset. rewrite Hid.
  unfold try_except, bind at 1, requests_get, send, download_request.
  cbv zeta. cbn [fst snd].
  destruct (serve E (sent w) _) as [r | e]; [| reflexivity].
  unfold bind at 1, lift.
  destruct (raise_for_status r) as [[] | e]; reflexivity.
Qed.

(** What [download_dataset] does to the disk stays within [saved_file]. *)
Lemma download_dataset_other_files (E : environment)
    (dataset_id : option string) (format : string) (w : world)
    (other : string) :
  other <> saved_file E dataset_id format ->
  files (download_dataset E dataset_id format w).2 !! other
    = files w !! other.
Proof.
  intros Hne. destruct (truthy dataset_id) eqn:Hid.
  - rewrite download_dataset_run by exact Hid. cbv zeta.
    destruct (serve E (sent w) _) as [r | e]; [| reflexivity].
    destruct (raise_for_status r) as [[] | e]; [| reflexivity].
    rewrite try_except_world. unfold bind at 1, open_wb.
    destruct (open_refused E _ _); [reflexivity |].
    unfold bind, ret.
    match goal with
    | |- context [write_chunks E ?p ?cs ?f ?w0] =>
        pose proof (write_chunks_other E p other cs f w0 Hne) as Hw;
        destruct (write_chunks E p cs f w0) as [[[] | e] w2]
    end; cbn [fst snd files] in *; rewrite Hw; now rewrite lookup_insert_ne.
  - unfold download_dataset. rewrite Hid. reflexivity.
Qed.

(** A success dict names [saved_file], and the file is then on disk. *)
Lemma download_dataset_success (E : environment)
    (dataset_id : option string) (format : string) (w : world)
    (d : gmap string pyval) :
  (download_dataset E dataset_id format w).1 = Returns (Some d) ->
  d !! "Success" = Some PTrue ->
  d = downloaded (saved_file E dataset_id format)
  /\ is_Some (files (download_dataset E dataset_id format w).2
                !! saved_file E dataset_id format).
Proof.
  assert (Hfailed : forall e, download_failed e !! "Success" <> Some PTrue)
    by (intros e He; vm_compute in He; discriminate).
  destruct (truthy dataset_id) eqn:Hid.
  - rewrite download_dataset_run by exact Hid. cbv zeta.
    destruct (serve E (sent w) _) as [r | e].
    2: { cbn [fst]. intros [= <-] Hs. now apply Hfailed in Hs. }
    destruct (raise_for_status r) as [[] | e].
    2: { cbn [fst]. intros [= <-] Hs. now apply Hfailed in Hs. }
    unfold try_except, bind, open_wb, ret.
    destruct (open_refused E _ _).
    { cbn [fst]. intros [= <-] Hs. now apply Hfailed in Hs. }
    match goal with
    | |- context [write_chunks E ?p ?cs ?f ?w0] =>
        pose proof (write_chunks_keeps E p cs f w0) as Hw;
        destruct (write_chunks E p cs f w0) as [[[] | e] w2]
    end; cbn [fst snd files] in *.
    + intros [= <-] _. split; [reflexivity |].
      apply Hw. rewrite lookup_insert_eq. eauto.
    + intros [= <-] Hs. now apply Hfailed in Hs.
  - unfold download_dataset. rewrite Hid. discriminate.
Qed.

(** ** The destination of a download *)

(** C5. For a non-empty [dataset_id], the destination of
    [download_dataset] is a function of [dataset_id] and [format] alone:
    <downloads>/<dataset_id>.tar.gz for format "parquet" and
    <downloads>/<dataset_id>.tar.xz for every other format; so
    ("DS_abc123_0", "parquet") goes to <downloads>/DS_abc123_0.tar.gz and
    ("DS_abc123_0", "original") to <downloads>/DS_abc123_0.tar.xz.  That is
    the only file the call touches, and the file a success dict names. *)
Theorem download_destination (E : environment) (id format : string)
    (w : world) :
  id <> "" ->
  (format = "parquet" ->
   saved_file E (Some id) format = download_dir E ++ "/" ++ id ++ ".tar.gz")
  /\ (format <> "parquet" ->
      saved_file E (Some id) format
        = download_dir E ++ "/" ++ id ++ ".tar.xz")
  /\ saved_file E (Some "DS_abc123_0") "parquet"
       = download_dir E ++ "/DS_abc123_0.tar.gz"
  /\ saved_file E (Some "DS_abc123_0") "original"
       = download_dir E ++ "/DS_abc123_0.tar.xz"
  /\ sent (download_dataset E (Some id) format w).2
       = (sent w ++ [download_request (Some id) format])%list
  /\ (forall other,
        other <> saved_file E (Some id) format ->
        files (download_dataset E (Some id) format w).2 !! other
          = files w !! other)
  /\ (forall d,
        (download_dataset E (Some id) format w).1 = Returns (Some d) ->
        d !! "Success" = Some PTrue ->
        d !! "Downloaded File"
          = Some (PJson (JStr (saved_file E (Some id) format)))
        /\ is_Some (files (download_dataset E (Some id) format w).2
                      !! saved_file E (Some id) format)).
Proof.
  intros Hid. repeat split.
  - intros ->. reflexivity.
  - intros Hother. unfold saved_file, filename.
    destruct (String.eqb_spec format "parquet"); [contradiction |].
    reflexivity.
  - rewrite download_dataset_run by (apply truthy_nonempty; exact Hid).
    cbv zeta.
    destruct (serve E (sent w) _) as [r | e]; [| reflexivity].
    destruct (raise_for_status r) as [[] | e]; [| reflexivity].
    rewrite try_except_world. unfold bind at 1, open_wb.
    destruct (open_refused E _ _); [reflexivity |].
    unfold bind, ret.
    match goal with
    | |- context [write_chunks E ?p ?cs ?f ?w0] =>
        pose proof (write_chunks_sent E p cs f w0) as Hw;
        destruct (write_chunks E p cs f w0) as [[[] | e] w2]
    end; cbn [fst snd sent] in *; exact Hw.
  - intros other Hne. apply download_dataset_other_files. exact Hne.
  - destruct (download_dataset_success E (Some id) format w d) as [-> _];
      [assumption | assumption |].
    vm_compute. reflexivity.
  - destruct (download_dataset_success E (Some id) format w d) as [_ Hfile];
      assumption.
Qed.

Lemma download_destination_witness :
  ("parquet" = "parquet" ->
   saved_file (sample_env 200) (Some "DS_abc123_0") "parquet"
     = "/home/user/Downloads" ++ "/" ++ "DS_abc123_0" ++ ".tar.gz")
  /\ ("parquet" <> "parquet" ->
      saved_file (sample_env 200) (Some "DS_abc123_0") "parquet"
        = "/home/user/Downloads" ++ "/" ++ "DS_abc123_0" ++ ".tar.xz")
  /\ saved_file (sample_env 200) (Some "DS_abc123_0") "parquet"
       = "/home/user/Downloads" ++ "/DS_abc123_0.tar.gz"
  /\ saved_file (sample_env 200) (Some "DS_abc123_0") "original"
       = "/home/user/Downloads" ++ "/DS_abc123_0.tar.xz"
  /\ sent (download_dataset (sample_env 200) (Some "DS_abc123_0") "parquet"
             empty_world).2
       = ([] ++ [download_request (Some "DS_abc123_0") "parquet"])%list
  /\ (forall other,
        other <> saved_file (sample_env 200) (Some "DS_abc123_0") "parquet" ->
        files (download_dataset (sample_env 200) (Some "DS_abc123_0")
                 "parquet" empty_world).2 !! other
          = (∅ : gmap string bytes) !! other)
  /\ (forall d,
        (download_dataset (sample_env 200) (Some "DS_abc123_0") "parquet"
           empty_world).1 = Returns (Some d) ->
        d !! "Success" = Some PTrue ->
        d !! "Downloaded File"
          = Some (PJson (JStr (saved_file (sample_env 200)
                                 (Some "DS_abc123_0") "parquet")))
        /\ is_Some (files (download_dataset (sample_env 200)
                             (Some "DS_abc123_0") "parquet" empty_world).2
                      !! saved_file (sample_env 200) (Some "DS_abc123_0")
                           "parquet")).
Proof.
  apply (download_destination (sample_env 200) "DS_abc123_0" "parquet"
           empty_world).
  discriminate.
Defined.

(** ** HTTP statuses and the download *)

(** A status outside 4xx and 5xx passes [raise_for_status]: on a disk
    that accepts the writes the download goes through. *)
Lemma download_dataset_proceeds (E : environment)
    (dataset_id : option string) (format : string) (w : world)
    (r : Response) :
  truthy dataset_id = true ->
  serve E (sent w) (download_request dataset_id format) = Returns r ->
  ~ is_error_status (status_code r) ->
  (forall fs path, open_refused E fs path = None) ->
  (forall fs path chunk, write_refused E fs path chunk = None) ->
  content_fault r = None ->
  (download_dataset E dataset_id format w).1
    = Returns (Some (downloaded (saved_file E dataset_id format))).
Proof.
  intros Hid Hserve Hstatus Hopen Hwrite Hfault.
  rewrite download_dataset_run by exact Hid. cbv zeta.
  rewrite Hserve, raise_for_status_other by exact Hstatus.
  rewrite Hfault. unfold try_except, bind at 1, open_wb. rewrite Hopen.
  generalize ({| sent := sent (after_request w
                                 (download_request dataset_id format));
                 files := <[saved_file E dataset_id format := []]>
                            (files (after_request w
                               (download_request dataset_id format))) |}).
  induction (content_chunks r) as [| chunk rest IH]; intros w0.
  - reflexivity.
  - simpl write_chunks. unfold bind at 1 2, file_write. rewrite Hwrite.
    apply IH.
Qed.

(** The claim of C6 read over every status that is not a success fails:
    to 304 Not Modified, which is no success status, [download_dataset]
    answers with a success dict, after creating the destination file. *)
Lemma download_not_modified_succeeds :
  truthy (Some "DS_abc123_0") = true
  /\ serve not_modified_env (sent empty_world)
       (download_request (Some "DS_abc123_0") "parquet")
     = Returns (response_with 304 JNull [])
  /\ ~ is_success_status (status_code (response_with 304 JNull []))
  /\ (download_dataset not_modified_env (Some "DS_abc123_0") "parquet"
        empty_world).1
     = Returns (Some (downloaded "/home/user/Downloads/DS_abc123_0.tar.gz"))
  /\ downloaded "/home/user/Downloads/DS_abc123_0.tar.gz" !! "Success"
     = Some PTrue
  /\ files empty_world !! "/home/user/Downloads/DS_abc123_0.tar.gz" = None
  /\ files (download_dataset not_modified_env (Some "DS_abc123_0") "parquet"
              empty_world).2
       !! "/home/user/Downloads/DS_abc123_0.tar.gz" = Some [].
Proof.
  split; [reflexivity |]. split; [reflexivity |].
  split; [unfold is_success_status; simpl; lia |].
  repeat split; vm_compute; reflexivity.
Qed.

(** C6, amended. For a non-empty [dataset_id], if the remote GET answers
    with an HTTP error status (4xx or 5xx), [download_dataset] raises
    before it opens the destination: the files are as they were, one
    request has gone out, and the call returns
    {"Success": False, "Error": HTTPError} instead of raising. *)
Theorem download_http_error (E : environment) (dataset_id : option string)
    (format : string) (w : world) (r : Response) :
  truthy dataset_id = true ->
  serve E (sent w) (download_request dataset_id format) = Returns r ->
  is_error_status (status_code r) ->
  download_dataset E dataset_id format w
    = (Returns (Some (download_failed (HTTPError (status_code r)))),
       after_request w (download_request dataset_id format))
  /\ files (download_dataset E dataset_id format w).2 = files w
  /\ download_failed (HTTPError (status_code r)) !! "Success" = Some PFalse
  /\ download_failed (HTTPError (status_code r)) !! "Error"
     = Some (PExc (HTTPError (status_code r))).
Proof.
  intros Hid Hserve Hstatus.
  assert (Hrun : download_dataset E dataset_id format w
                 = (Returns (Some (download_failed
                                     (HTTPError (status_code r)))),
                    after_request w (download_request dataset_id format))).
  { rewrite download_dataset_run by exact Hid. cbv zeta.
    now rewrite Hserve, raise_for_status_error by exact Hstatus. }
  split; [exact Hrun |]. rewrite Hrun.
  repeat split; vm_compute; reflexivity.
Qed.

Lemma download_http_error_witness :
  download_dataset (sample_env 404) (Some "DS_abc123_0") "original"
    empty_world
    = (Returns (Some (download_failed (HTTPError 404))),
       after_request empty_world
         (download_request (Some "DS_abc123_0") "original"))
  /\ files (download_dataset (sample_env 404) (Some "DS_abc123_0")
              "original" empty_world).2 = files empty_world
  /\ download_failed (HTTPError 404) !! "Success" = Some PFalse
  /\ download_failed (HTTPError 404) !! "Error"
     = Some (PExc (HTTPError 404)).
Proof.
  apply (download_http_error (sample_env 404) (Some "DS_abc123_0")
           "original" empty_world
           (response_with 404 (JArr sample_records)
              [[Byte.x01; Byte.x02; Byte.x03]])).
  - reflexivity.
  - reflexivity.
  - unfold is_error_status. simpl. lia.
Defined.

(** ** A download without an id *)

(** C7. When [dataset_id] is absent or empty, whatever the format,
    [download_dataset] sends no request, touches no file and falls off its
    end: the result is None, not a success or error dict. *)
Theorem download_without_id (E : environment) (dataset_id : option string)
    (format : string) (w : world) :
  dataset_id = None \/ dataset_id = Some "" ->
  download_dataset E dataset_id format w = (Returns None, w)
  /\ sent (download_dataset E dataset_id format w).2 = sent w
  /\ files (download_dataset E dataset_id format w).2 = files w.
Proof.
  intros [-> | ->]; repeat split.
Qed.

Lemma download_without_id_witness :
  download_dataset (sample_env 200) None "original" empty_world
    = (Returns None, empty_world)
  /\ sent (download_dataset (sample_env 200) None "original"
             empty_world).2 = sent empty_world
  /\ files (download_dataset (sample_env 200) None "original"
              empty_world).2 = files empty_world.
Proof.
  apply (download_without_id (sample_env 200) None "original" empty_world).
  left. reflexivity.
Defined.

(** ** The runs the specification lists *)

(** The arguments of a call that passes none. *)
Example at_page_defaults : at_page 1 10 = Args.defaults.
Proof. reflexivity. Qed.

(** Page 1 of size 10 over 25 items: 10 results, 3 pages. *)
Example first_page_of_25 :
  exists d,
    (dataset_query (sample_env 200) (at_page 1 10) empty_world).1 = Returns d
    /\ d !! "Result Length" = Some (PJson (JInt 10))
    /\ d !! "Total Pages" = Some (PJson (JInt 3))
    /\ d !! "Results" = Some (PJson (JArr (take 10 sample_records))).
Proof. eexists. split; [reflexivity |]. repeat split. Qed.

(** Page 3 of size 10 over the same items: the last 5, 3 pages. *)
Example third_page_of_25 :
  exists d,
    (dataset_query (sample_env 200) (at_page 3 10) empty_world).1 = Returns d
    /\ d !! "Result Length" = Some (PJson (JInt 5))
    /\ d !! "Total Pages" = Some (PJson (JInt 3))
    /\ d !! "Results" = Some (PJson (JArr (drop 20 sample_records))).
Proof. eexists. split; [reflexivity |]. repeat split. Qed.

(** A network failure during the query: a failure dict that carries the
    exception, and one request on record. *)
Example query_offline :
  dataset_query offline_env (at_page 1 10) empty_world
    = (Returns (failure_envelope (RequestException "connection refused")),
       after_request empty_world (query_request (at_page 1 10))).
Proof. vm_compute. reflexivity. Qed.

(** A download that goes through: the chunks are in the destination. *)
Example download_parquet :
  (download_dataset (sample_env 200) (Some "DS_abc123_0") "parquet"
     empty_world).1
    = Returns (Some (downloaded "/home/user/Downloads/DS_abc123_0.tar.gz"))
  /\ files (download_dataset (sample_env 200) (Some "DS_abc123_0") "parquet"
              empty_world).2
       !! "/home/user/Downloads/DS_abc123_0.tar.gz"
     = Some [Byte.x01; Byte.x02; Byte.x03]
  /\ sent (download_dataset (sample_env 200) (Some "DS_abc123_0") "parquet"
             empty_world).2
     = [GET ("https://materials.colabfit.org/mcp/dataset-download/"
               ++ "parquet/DS_abc123_0.tar.gz")
          ("mcp-tool", "mcp-secret")].
Proof. repeat split; vm_compute; reflexivity. Qed.

(** For the original format the URL names the bare id. *)
Example download_original_url :
  download_request (Some "DS_abc123_0") "original"
    = GET ("https://materials.colabfit.org/mcp/dataset-download/"
             ++ "original/DS_abc123_0")
        ("mcp-tool", "mcp-secret").
Proof. reflexivity. Qed.

(** * Further properties of [dataset_query] *)

Lemma results_of_success (results : list json)
    (result_length page page_size total_pages : Z) :
  results_of (Returns (success_envelope (JArr results) result_length page
                         page_size total_pages)) = results.
Proof. vm_compute. reflexivity. Qed.

Lemma succeeded_success (results : json)
    (result_length page page_size total_pages : Z) :
  succeeded (Returns (success_envelope results result_length page page_size
                        total_pages)).
Proof. eexists. split; [reflexivity | apply success_envelope_fields]. Qed.

Lemma failure_not_succeeded (e : exn) :
  ~ succeeded (Returns (failure_envelope e)).
Proof.
  intros (d & [= <-] & Hs). vm_compute in Hs. discriminate.
Qed.

(** X1. The query never looks at the HTTP status: an error status whose body
    decodes to a list is paginated and reported as a success. *)
Theorem dataset_query_ignores_status (E : environment) (a : Args.t)
    (w : world) (r : Response) (l : list json) :
  serve E (sent w) (query_request a) = Returns r ->
  is_error_status (status_code r) ->
  json_body_of r = Returns (JArr l) ->
  Args.page_size a <> 0 ->
  succeeded (dataset_query E a w).1
  /\ results_of (dataset_query E a w).1
     = py_slice l (slice_start (Args.page a) (Args.page_size a))
         (slice_end (Args.page a) (Args.page_size a)).
Proof.
  intros Hserve _ Hjson Hps.
  rewrite (dataset_query_list E a w r l Hserve Hjson Hps).
  split; [apply succeeded_success | apply results_of_success].
Qed.

Lemma dataset_query_ignores_status_witness :
  succeeded (dataset_query (sample_env 500) (at_page 1 10) empty_world).1
  /\ results_of (dataset_query (sample_env 500) (at_page 1 10) empty_world).1
     = py_slice sample_records (slice_start 1 10) (slice_end 1 10).
Proof.
  apply (dataset_query_ignores_status (sample_env 500) (at_page 1 10)
           empty_world
           (response_with 500 (JArr sample_records)
              [[Byte.x01; Byte.x02; Byte.x03]]) sample_records).
  - reflexivity.
  - unfold is_error_status. simpl. lia.
  - reflexivity.
  - discriminate.
Defined.

(** X2. Which decoded responses give a success when [page_size] is not 0:
    exactly the lists and the strings (a string is sliced by character);
    an object, a number, a boolean or null gives the failure dict. *)
Theorem dataset_query_success_shape (E : environment) (a : Args.t)
    (w : world) (r : Response) (j : json) :
  serve E (sent w) (query_request a) = Returns r ->
  json_body_of r = Returns j ->
  Args.page_size a <> 0 ->
  (succeeded (dataset_query E a w).1
   <-> (exists l, j = JArr l) \/ (exists s, j = JStr s)).
Proof.
  intros Hserve Hjson Hps.
  rewrite dataset_query_eq, try_except_result.
  unfold query_body, requests_post, send, bind, lift, ret. cbn [fst snd].
  unfold query_request in Hserve. rewrite Hserve, Hjson.
  unfold py_floordiv.
  destruct j as [| b | n | f | s | l | m]; cbn [py_len py_getslice];
    try (split; [intros Hs; now apply failure_not_succeeded in Hs
                | intros [[l' Hl] | [s' Hs']]; discriminate]).
  - destruct (Z.eqb_spec (Args.page_size a) 0); [contradiction |].
    cbn [py_len]. split; [right; now exists s | intros _].
    apply succeeded_success.
  - destruct (Z.eqb_spec (Args.page_size a) 0); [contradiction |].
    cbn [py_len]. split; [left; now exists l | intros _].
    apply succeeded_success.
  - destruct (Z.eqb_spec (Args.page_size a) 0); [contradiction |].
    split; [intros Hs; now apply failure_not_succeeded in Hs
           | intros [[l' Hl] | [s' Hs']]; discriminate].
Qed.

Lemma dataset_query_success_shape_witness :
  succeeded
    (dataset_query
       (constant_env (Returns (response_with 200 (JStr "maintenance") []))
          None)
       (at_page 1 4) empty_world).1
  <-> (exists l, JStr "maintenance" = JArr l)
      \/ (exists s, JStr "maintenance" = JStr s).
Proof.
  apply (dataset_query_success_shape
           (constant_env (Returns (response_with 200 (JStr "maintenance") []))
              None)
           (at_page 1 4) empty_world
           (response_with 200 (JStr "maintenance") [])
           (JStr "maintenance")).
  - reflexivity.
  - reflexivity.
  - discriminate.
Defined.

(** X3. A negative page counts from the end: for [page <= -1] and
    [page_size >= 1] the call succeeds with the run of the list between
    N + (page-1)*page_size and N + page*page_size, each clipped at 0; the
    run is not empty as soon as the list is longer than -page*page_size. *)
Theorem dataset_query_negative_page (E : environment) (a : Args.t)
    (w : world) (r : Response) (l : list json) :
  Args.page a <= -1 ->
  1 <= Args.page_size a ->
  serve E (sent w) (query_request a) = Returns r ->
  json_body_of r = Returns (JArr l) ->
  let N := Z.of_nat (length l) in
  let lo := Z.max (N + (Args.page a - 1) * Args.page_size a) 0 in
  let hi := Z.max (N + Args.page a * Args.page_size a) 0 in
  succeeded (dataset_query E a w).1
  /\ results_of (dataset_query E a w).1 = clipped_slice l lo hi
  /\ (- Args.page a * Args.page_size a < N ->
      results_of (dataset_query E a w).1 <> []).
Proof.
  intros Hpage Hps Hserve Hjson N lo hi.
  rewrite (dataset_query_list E a w r l Hserve Hjson ltac:(lia)).
  rewrite results_of_success.
  assert (Hslice : py_slice l (slice_start (Args.page a) (Args.page_size a))
                     (slice_end (Args.page a) (Args.page_size a))
                   = clipped_slice l lo hi).
  { unfold py_slice, adjust_index, slice_end, slice_start, clipped_slice.
    fold N.
    destruct (Z.ltb_spec ((Args.page a - 1) * Args.page_size a) 0); [| nia].
    destruct (Z.ltb_spec ((Args.page a - 1) * Args.page_size a
                          + Args.page_size a) 0); [| nia].
    replace ((Args.page a - 1) * Args.page_size a + Args.page_size a + N)
      with (N + Args.page a * Args.page_size a) by lia.
    replace ((Args.page a - 1) * Args.page_size a + N)
      with (N + (Args.page a - 1) * Args.page_size a) by lia.
    fold lo hi.
    destruct (Z.ltb_spec lo hi); [reflexivity |].
    now replace (Z.to_nat (hi - lo)) with 0%nat by lia. }
  split; [apply succeeded_success |]. split; [exact Hslice |].
  intros Hlong. rewrite Hslice. unfold clipped_slice.
  intros Hnil. apply (f_equal length) in Hnil.
  rewrite length_take, length_drop in Hnil. simpl in Hnil.
  subst N lo hi. nia.
Qed.

Lemma dataset_query_negative_page_witness :
  let N := Z.of_nat (length sample_records) in
  let lo := Z.max (N + (-1 - 1) * 10) 0 in
  let hi := Z.max (N + -1 * 10) 0 in
  succeeded (dataset_query (sample_env 200) (at_page (-1) 10) empty_world).1
  /\ results_of (dataset_query (sample_env 200) (at_page (-1) 10)
                   empty_world).1
     = clipped_slice sample_records lo hi
  /\ (- -1 * 10 < N ->
      results_of (dataset_query (sample_env 200) (at_page (-1) 10)
                    empty_world).1 <> []).
Proof.
  apply (dataset_query_negative_page (sample_env 200) (at_page (-1) 10)
           empty_world
           (response_with 200 (JArr sample_records)
              [[Byte.x01; Byte.x02; Byte.x03]]) sample_records).
  - simpl. lia.
  - simpl. lia.
  - reflexivity.
  - reflexivity.
Defined.

(** ** Pages as a partition of the result set *)

Lemma clipped_slice_length {A} (l : list A) (lo hi : Z) :
  0 <= lo ->
  Z.of_nat (length (clipped_slice l lo hi))
    = Z.max 0 (Z.min (hi - lo) (Z.of_nat (length l) - lo)).
Proof.
  intros Hlo. unfold clipped_slice. rewrite length_take, length_drop. lia.
Qed.

(** X4. How many items a page holds: for [page >= 1] and [page_size >= 1],
    "Result Length" is min(page_size, max(0, N - (page-1)*page_size)).  So
    it never exceeds [page_size], and a page that ends within the list is
    full. *)
Theorem dataset_query_result_length (E : environment) (a : Args.t)
    (w : world) (r : Response) (l : list json) :
  1 <= Args.page a ->
  1 <= Args.page_size a ->
  serve E (sent w) (query_request a) = Returns r ->
  json_body_of r = Returns (JArr l) ->
  let N := Z.of_nat (length l) in
  exists (d : gmap string pyval) (n : Z),
    (dataset_query E a w).1 = Returns d
    /\ d !! "Result Length" = Some (PJson (JInt n))
    /\ n = Z.min (Args.page_size a)
             (Z.max 0 (N - (Args.page a - 1) * Args.page_size a))
    /\ 0 <= n <= Args.page_size a
    /\ (Args.page a * Args.page_size a <= N -> n = Args.page_size a).
Proof.
  intros Hpage Hps Hserve Hjson N.
  pose proof (dataset_query_list E a w r l Hserve Hjson ltac:(lia)) as Hrun.
  cbv zeta in Hrun. unfold slice_end, slice_start in Hrun.
  rewrite py_slice_clipped in Hrun by nia.
  rewrite clipped_slice_length in Hrun by nia.
  eexists _, _. split; [exact Hrun |].
  split; [apply success_envelope_fields |].
  fold N. repeat split; nia.
Qed.

Lemma dataset_query_result_length_witness :
  let N := Z.of_nat (length sample_records) in
  exists (d : gmap string pyval) (n : Z),
    (dataset_query (sample_env 200) (at_page 3 10) empty_world).1 = Returns d
    /\ d !! "Result Length" = Some (PJson (JInt n))
    /\ n = Z.min 10 (Z.max 0 (N - (3 - 1) * 10))
    /\ 0 <= n <= 10
    /\ (3 * 10 <= N -> n = 10).
Proof.
  apply (dataset_query_result_length (sample_env 200) (at_page 3 10)
           empty_world
           (response_with 200 (JArr sample_records)
              [[Byte.x01; Byte.x02; Byte.x03]]) sample_records).
  - simpl. lia.
  - simpl. lia.
  - reflexivity.
  - reflexivity.
Defined.

(** X5. An empty result set: for [page_size >= 1] and any page, also 0 or
    negative, the call succeeds with no results, "Result Length" 0 and
    "Total Pages" 0. *)
Theorem dataset_query_empty_result_set (E : environment) (a : Args.t)
    (w : world) (r : Response) :
  1 <= Args.page_size a ->
  serve E (sent w) (query_request a) = Returns r ->
  json_body_of r = Returns (JArr []) ->
  (dataset_query E a w).1
    = Returns (success_envelope (JArr []) 0 (Args.page a) (Args.page_size a)
                 0).
Proof.
  intros Hps Hserve Hjson.
  rewrite (dataset_query_list E a w r [] Hserve Hjson ltac:(lia)).
  assert (Hslice : forall lo hi, py_slice (@nil json) lo hi = []).
  { intros lo hi. unfold py_slice. destruct (_ <? _); [| reflexivity].
    now rewrite drop_nil, take_nil. }
  rewrite Hslice. cbn [length]. change (Z.of_nat 0) with 0.
  replace ((0 + Args.page_size a - 1) / Args.page_size a) with 0;
    [reflexivity |].
  symmetry. apply Z.div_small. lia.
Qed.

Lemma dataset_query_empty_result_set_witness :
  (dataset_query
     (constant_env (Returns (response_with 200 (JArr []) [])) None)
     (at_page (-2) 10) empty_world).1
    = Returns (success_envelope (JArr []) 0 (-2) 10 0).
Proof.
  apply (dataset_query_empty_result_set
           (constant_env (Returns (response_with 200 (JArr []) [])) None)
           (at_page (-2) 10) empty_world
           (response_with 200 (JArr []) [])).
  - simpl. lia.
  - reflexivity.
  - reflexivity.
Defined.

(** The request does not depend on the page asked for. *)
Lemma query_request_with_page (a : Args.t) (page page_size : Z) :
  query_request (with_page a page page_size) = query_request a.
Proof.
  unfold query_request. now rewrite !payload_fields.
Qed.

(** Consecutive runs of [k] items, put end to end. *)
Lemma concat_chunks_take {A} (l : list A) (k n : nat) :
  concat ((fun i => take k (drop (i * k) l)) <$> seq 0 n) = take (n * k) l.
Proof.
  induction n as [| n IH].
  - now rewrite take_0.
  - rewrite seq_S, fmap_app, concat_app, IH. cbn [fmap list_fmap concat].
    rewrite (right_id_L [] (++)), take_take_drop.
    f_equal. lia.
Qed.

(** X6. Paging loses nothing and repeats nothing: for [page_size >= 1], the
    results of pages 1, 2, ..., Total Pages of the same query, put end to
    end, are the remote list. *)
Theorem dataset_query_pages_cover (E : environment) (a : Args.t) (w : world)
    (r : Response) (l : list json) :
  1 <= Args.page_size a ->
  serve E (sent w) (query_request a) = Returns r ->
  json_body_of r = Returns (JArr l) ->
  exists (d : gmap string pyval) (total_pages : Z),
    (dataset_query E a w).1 = Returns d
    /\ d !! "Total Pages" = Some (PJson (JInt total_pages))
    /\ concat
         ((fun page =>
             results_of
               (dataset_query E (with_page a page (Args.page_size a)) w).1)
            <$> seqZ 1 total_pages)
       = l.
Proof.
  intros Hps Hserve Hjson.
  pose proof (dataset_query_list E a w r l Hserve Hjson ltac:(lia)) as Hrun.
  cbv zeta in Hrun.
  eexists _, _. split; [exact Hrun |].
  split; [apply success_envelope_fields |].
  set (ps := Args.page_size a) in *.
  set (tp := (Z.of_nat (length l) + ps - 1) / ps).
  pose proof (ceil_div_floordiv (Z.of_nat (length l)) ps Hps) as [_ Hcover].
  fold tp in Hcover.
  unfold seqZ. rewrite <- list_fmap_compose.
  rewrite (list_fmap_ext _
             (fun i => take (Z.to_nat ps) (drop (i * Z.to_nat ps) l))).
  - rewrite concat_chunks_take. apply take_ge. nia.
  - intros _ i _. unfold compose.
    assert (Hserve' : serve E (sent w)
                        (query_request (with_page a (Z.of_nat i + 1) ps))
                      = Returns r)
      by now rewrite query_request_with_page.
    rewrite (dataset_query_list E _ w r l Hserve' Hjson);
      [| cbn [Args.page_size with_page]; lia].
    rewrite results_of_success.
    cbn [Args.page Args.page_size with_page].
    unfold slice_end, slice_start.
    rewrite py_slice_clipped by nia. unfold clipped_slice.
    f_equal; [lia | f_equal; nia].
Qed.

Lemma dataset_query_pages_cover_witness :
  exists (d : gmap string pyval) (total_pages : Z),
    (dataset_query (sample_env 200) (at_page 1 10) empty_world).1 = Returns d
    /\ d !! "Total Pages" = Some (PJson (JInt total_pages))
    /\ concat
         ((fun page =>
             results_of
               (dataset_query (sample_env 200)
                  (with_page (at_page 1 10) page 10) empty_world).1)
            <$> seqZ 1 total_pages)
       = sample_records.
Proof.
  apply (dataset_query_pages_cover (sample_env 200) (at_page 1 10)
           empty_world
           (response_with 200 (JArr sample_records)
              [[Byte.x01; Byte.x02; Byte.x03]]) sample_records).
  - simpl. lia.
  - reflexivity.
  - reflexivity.
Defined.

(** * Further properties of [download_dataset] *)

(** On a disk that accepts every write, the loop appends all the chunks
    to the opened file, and raises only what the stream raises. *)
Lemma write_chunks_accepted (E : environment) (path : string)
    (chunks : list bytes) (fault : option exn) (s : list http_request)
    (fs : gmap string bytes) (old : bytes) :
  (forall fs' path' chunk, write_refused E fs' path' chunk = None) ->
  write_chunks E path chunks fault
    {| sent := s; files := <[path := old]> fs |}
  = (match fault with
     | Some e => Raises e
     | None => Returns tt
     end,
     {| sent := s; files := <[path := (old ++ concat chunks)%list]> fs |}).
Proof.
  intros Hwrite. revert old.
  induction chunks as [| chunk rest IH]; intros old.
  - cbn [write_chunks concat]. rewrite (right_id_L [] (++)).
    destruct fault; reflexivity.
  - cbn [write_chunks concat]. unfold bind, file_write. rewrite Hwrite.
    cbn [sent files]. rewrite lookup_insert_eq, insert_insert_eq.
    cbn [default from_option]. unfold id.
    rewrite IH. now rewrite <- (assoc_L (++)).
Qed.

(** X7. A network failure of the GET: the failure dict carries the exception,
    one request is on record and no file is created or changed. *)
Theorem download_network_failure (E : environment)
    (dataset_id : option string) (format : string) (w : world) (e : exn) :
  truthy dataset_id = true ->
  serve E (sent w) (download_request dataset_id format) = Raises e ->
  download_dataset E dataset_id format w
    = (Returns (Some (download_failed e)),
       after_request w (download_request dataset_id format))
  /\ files (download_dataset E dataset_id format w).2 = files w
  /\ download_failed e !! "Success" = Some PFalse
  /\ download_failed e !! "Error" = Some (PExc e).
Proof.
  intros Hid Hserve.
  assert (Hrun : download_dataset E dataset_id format w
                 = (Returns (Some (download_failed e)),
                    after_request w (download_request dataset_id format))).
  { rewrite download_dataset_run by exact Hid. cbv zeta.
    now rewrite Hserve. }
  split; [exact Hrun |]. rewrite Hrun.
  repeat split; vm_compute; reflexivity.
Qed.

Lemma download_network_failure_witness :
  download_dataset offline_env (Some "DS_abc123_0") "parquet" stale_world
    = (Returns (Some (download_failed
                        (RequestException "connection refused"))),
       after_request stale_world
         (download_request (Some "DS_abc123_0") "parquet"))
  /\ files (download_dataset offline_env (Some "DS_abc123_0") "parquet"
              stale_world).2 = files stale_world
  /\ download_failed (RequestException "connection refused") !! "Success"
     = Some PFalse
  /\ download_failed (RequestException "connection refused") !! "Error"
     = Some (PExc (RequestException "connection refused")).
Proof.
  apply (download_network_failure offline_env (Some "DS_abc123_0") "parquet"
           stale_world (RequestException "connection refused")).
  - reflexivity.
  - reflexivity.
Defined.

(** X8. When the destination cannot be opened, the response is dropped: the
    failure dict carries the error of [open], and the disk is as it was,
    an older file at the destination included. *)
Theorem download_open_refused (E : environment)
    (dataset_id : option string) (format : string) (w : world)
    (r : Response) (e : exn) :
  truthy dataset_id = true ->
  serve E (sent w) (download_request dataset_id format) = Returns r ->
  ~ is_error_status (status_code r) ->
  open_refused E (files w) (saved_file E dataset_id format) = Some e ->
  download_dataset E dataset_id format w
    = (Returns (Some (download_failed e)),
       after_request w (download_request dataset_id format)).
Proof.
  intros Hid Hserve Hstatus Hopen.
  rewrite download_dataset_run by exact Hid. cbv zeta.
  rewrite Hserve, raise_for_status_other by exact Hstatus.
  unfold try_except, bind, open_wb. cbn [files after_request].
  now rewrite Hopen.
Qed.

Lemma download_open_refused_witness :
  download_dataset
    (constant_env (Returns (response_with 200 JNull [[Byte.x01]]))
       (Some (OSError "Permission denied")))
    (Some "DS_abc123_0") "parquet" stale_world
    = (Returns (Some (download_failed (OSError "Permission denied"))),
       after_request stale_world
         (download_request (Some "DS_abc123_0") "parquet")).
Proof.
  apply (download_open_refused
           (constant_env (Returns (response_with 200 JNull [[Byte.x01]]))
              (Some (OSError "Permission denied")))
           (Some "DS_abc123_0") "parquet" stale_world
           (response_with 200 JNull [[Byte.x01]])
           (OSError "Permission denied")).
  - reflexivity.
  - reflexivity.
  - unfold is_error_status. simpl. lia.
  - reflexivity.
Defined.

(** X9. A download that goes through replaces the destination: whatever the
    file held before, it then holds the chunks of the response in order,
    and nothing else on disk has changed. *)
Theorem download_overwrites (E : environment) (dataset_id : option string)
    (format : string) (w : world) (r : Response) :
  truthy dataset_id = true ->
  serve E (sent w) (download_request dataset_id format) = Returns r ->
  ~ is_error_status (status_code r) ->
  (forall fs path, open_refused E fs path = None) ->
  (forall fs path chunk, write_refused E fs path chunk = None) ->
  content_fault r = None ->
  download_dataset E dataset_id format w
    = (Returns (Some (downloaded (saved_file E dataset_id format))),
       {| sent := (sent w ++ [download_request dataset_id format])%list;
          files := <[saved_file E dataset_id format
                       := concat (content_chunks r)]> (files w) |}).
Proof.
  intros Hid Hserve Hstatus Hopen Hwrite Hfault.
  rewrite download_dataset_run by exact Hid. cbv zeta.
  rewrite Hserve, raise_for_status_other by exact Hstatus.
  unfold try_except, bind at 1, open_wb. rewrite Hopen.
  cbn [sent files after_request]. unfold bind at 1.
  rewrite (write_chunks_accepted E _ _ _ _ _ [] Hwrite), Hfault.
  reflexivity.
Qed.

Lemma download_overwrites_witness :
  download_dataset (sample_env 200) (Some "DS_abc123_0") "parquet"
    stale_world
    = (Returns (Some (downloaded
                        (saved_file (sample_env 200) (Some "DS_abc123_0")
                           "parquet"))),
       {| sent := (sent stale_world
                     ++ [download_request (Some "DS_abc123_0") "parquet"])%list;
          files := <[saved_file (sample_env 200) (Some "DS_abc123_0")
                       "parquet"
                       := concat (content_chunks
                                    (response_with 200 (JArr sample_records)
                                       [[Byte.x01; Byte.x02; Byte.x03]]))]>
                     (files stale_world) |}).
Proof.
  apply (download_overwrites (sample_env 200) (Some "DS_abc123_0") "parquet"
           stale_world
           (response_with 200 (JArr sample_records)
              [[Byte.x01; Byte.x02; Byte.x03]])).
  - reflexivity.
  - reflexivity.
  - unfold is_error_status. simpl. lia.
  - intros fs path. reflexivity.
  - intros fs path chunk. reflexivity.
  - reflexivity.
Defined.

(** X10. A stream that breaks part way: the failure dict carries the fault,
    and the destination is left on disk with the chunks that had arrived;
    nothing removes it. *)
Theorem download_partial_file (E : environment) (dataset_id : option string)
    (format : string) (w : world) (r : Response) (e : exn) :
  truthy dataset_id = true ->
  serve E (sent w) (download_request dataset_id format) = Returns r ->
  ~ is_error_status (status_code r) ->
  (forall fs path, open_refused E fs path = None) ->
  (forall fs path chunk, write_refused E fs path chunk = None) ->
  content_fault r = Some e ->
  download_dataset E dataset_id format w
    = (Returns (Some (download_failed e)),
       {| sent := (sent w ++ [download_request dataset_id format])%list;
          files := <[saved_file E dataset_id format
                       := concat (content_chunks r)]> (files w) |}).
Proof.
  intros Hid Hserve Hstatus Hopen Hwrite Hfault.
  rewrite download_dataset_run by exact Hid. cbv zeta.
  rewrite Hserve, raise_for_status_other by exact Hstatus.
  unfold try_except, bind at 1, open_wb. rewrite Hopen.
  cbn [sent files after_request]. unfold bind at 1.
  rewrite (write_chunks_accepted E _ _ _ _ _ [] Hwrite), Hfault.
  reflexivity.
Qed.

Lemma download_partial_file_witness :
  download_dataset (constant_env (Returns broken_stream) None)
    (Some "DS_abc123_0") "original" empty_world
    = (Returns (Some (download_failed
                        (RequestException "connection broken"))),
       {| sent := (sent empty_world
                     ++ [download_request (Some "DS_abc123_0") "original"])%list;
          files := <[saved_file (constant_env (Returns broken_stream) None)
                       (Some "DS_abc123_0") "original"
                       := concat (content_chunks broken_stream)]>
                     (files empty_world) |}).
Proof.
  apply (download_partial_file (constant_env (Returns broken_stream) None)
           (Some "DS_abc123_0") "original" empty_world broken_stream
           (RequestException "connection broken")).
  - reflexivity.
  - reflexivity.
  - unfold is_error_status. simpl. lia.
  - intros fs path. reflexivity.
  - intros fs path chunk. reflexivity.
  - reflexivity.
Defined.

(** X11. Downloading again does not append: when the service gives the same
    response both times, the disk after the second download is the disk
    after the first, and both calls report the same file. *)
Theorem download_twice (E : environment) (dataset_id : option string)
    (format : string) (w : world) (r : Response) :
  truthy dataset_id = true ->
  serve E (sent w) (download_request dataset_id format) = Returns r ->
  serve E (sent w ++ [download_request dataset_id format])%list
    (download_request dataset_id format) = Returns r ->
  ~ is_error_status (status_code r) ->
  (forall fs path, open_refused E fs path = None) ->
  (forall fs path chunk, write_refused E fs path chunk = None) ->
  content_fault r = None ->
  let first := download_dataset E dataset_id format w in
  let second := download_dataset E dataset_id format first.2 in
  second.1 = first.1
  /\ files second.2 = files first.2
  /\ files second.2 !! saved_file E dataset_id format
     = Some (concat (content_chunks r)).
Proof.
  intros Hid Hserve1 Hserve2 Hstatus Hopen Hwrite Hfault first second.
  subst second first.
  rewrite (download_overwrites E dataset_id format w r) by assumption.
  cbn [fst snd].
  rewrite (download_overwrites E dataset_id format _ r) by assumption.
  cbn [fst snd files]. rewrite insert_insert_eq.
  repeat split. apply lookup_insert_eq.
Qed.

Lemma download_twice_witness :
  let first :=
    download_dataset (sample_env 200) (Some "DS_abc123_0") "parquet"
      stale_world in
  let second :=
    download_dataset (sample_env 200) (Some "DS_abc123_0") "parquet"
      first.2 in
  second.1 = first.1
  /\ files second.2 = files first.2
  /\ files second.2
       !! saved_file (sample_env 200) (Some "DS_abc123_0") "parquet"
     = Some (concat (content_chunks
                       (response_with 200 (JArr sample_records)
                          [[Byte.x01; Byte.x02; Byte.x03]]))).
Proof.
  apply (download_twice (sample_env 200) (Some "DS_abc123_0") "parquet"
           stale_world
           (response_with 200 (JArr sample_records)
              [[Byte.x01; Byte.x02; Byte.x03]])).
  - reflexivity.
  - reflexivity.
  - reflexivity.
  - unfold is_error_status. simpl. lia.
  - intros fs path. reflexivity.
  - intros fs path chunk. reflexivity.
  - reflexivity.
Defined.
